(** * RazorIMU: the frame decoder of the Sparkfun Razor 9DOF interface

    A shallow embedding of [razorIMU.py] (class [RazorIMU]: [begin],
    [parseResponses], [shutdown], [crc8_value]) and the properties of its
    byte-stream decoder.

    The Python object and the world it talks to (serial port, queue, logger,
    clock, the thread that calls [shutdown]) are explicit state; every method
    is a function in a small state-and-exception monad. *)

From Stdlib Require Import ZArith String Ascii Bool Arith Lia List.
From Stdlib Require Import Init.Byte Strings.Byte Floats.SpecFloat.
Import ListNotations.

Set Implicit Arguments.

(** ** Python values *)

Module Py.

(** The values that reach the queue: ints, floats (as IEEE-754 values),
    strings, tuples and lists. *)
#[local] Unset Elimination Schemes.
Inductive value : Type :=
| Int (z : Z)
| Bool (b : bool)
| Float (f : spec_float)
| Str (s : string)
| Tuple (l : list value)
| List (l : list value).
#[local] Set Elimination Schemes.

(** Truth value of an object, as [not x] and [if x] use it. *)
Definition truthy (v : value) : bool :=
  match v with
  | Int z => negb (z =? 0)%Z
  | Bool b => b
  | Float f => match f with S754_zero _ => false | _ => true end
  | Str s => negb (String.eqb s "")
  | Tuple l | List l => match l with [] => false | _ => true end
  end.

(** A dict with string keys, in insertion order. *)
Definition dict := list (string * value).

Fixpoint dict_get (d : dict) (k : string) : option value :=
  match d with
  | [] => None
  | (k', v) :: d' => if String.eqb k' k then Some v else dict_get d' k
  end.

(** [d[k] = v]: overwrite in place when the key is there, append otherwise. *)
Fixpoint dict_set (d : dict) (k : string) (v : value) : dict :=
  match d with
  | [] => [(k, v)]
  | (k', v') :: d' =>
      if String.eqb k' k then (k', v) :: d' else (k', v') :: dict_set d' k v
  end.

(** [d.update(other)]. *)
Definition dict_update (d other : dict) : dict :=
  fold_left (fun acc kv => dict_set acc (fst kv) (snd kv)) other d.

(** [dict(zip(keys, values))]. *)
Definition dict_of_zip (ks : list string) (vs : list value) : dict :=
  dict_update [] (combine ks vs).

(** [l[i] = v] for an index inside the list. *)
Fixpoint list_set (l : list value) (i : nat) (v : value) : list value :=
  match l, i with
  | [], _ => []
  | _ :: l', O => v :: l'
  | x :: l', S i' => x :: list_set l' i' v
  end.

(** The exceptions the decoder can meet. *)
Inductive exn : Type :=
| AttributeError
| TypeError
| IndexError
| struct_error
| SerialException.

End Py.

(** ** Bytes and [struct] *)

Definition byte_val (b : byte) : Z := Z.of_N (Byte.to_N b).

(** Unsigned little-endian integer held by a run of bytes. *)
Fixpoint le_uint (bs : list byte) : Z :=
  match bs with
  | [] => 0
  | b :: bs' => byte_val b + 256 * le_uint bs'
  end.

(** The binary32 number with the given 32-bit pattern: one sign bit, eight
    exponent bits biased by 127, 23 fraction bits. *)
Definition binary32_of_bits (z : Z) : spec_float :=
  let sign := Z.testbit z 31 in
  let e := Z.land (Z.shiftr z 23) 255 in
  let m := Z.land z 8388607 in
  if (e =? 0)%Z then
    if (m =? 0)%Z then S754_zero sign else S754_finite sign (Z.to_pos m) (-149)
  else if (e =? 255)%Z then
    if (m =? 0)%Z then S754_infinity sign else S754_nan
  else S754_finite sign (Z.to_pos (m + 8388608)) (e - 150).

Module struct.

(** Format characters used by the decoder. *)
Inductive code : Type := B | f.

Definition size (c : code) : nat :=
  match c with B => 1 | f => 4 end.

Fixpoint codes (s : string) : option (list code) :=
  match s with
  | EmptyString => Some []
  | String c s' =>
      match codes s' with
      | None => None
      | Some cs =>
          if Ascii.eqb c "B" then Some (B :: cs)
          else if Ascii.eqb c "f" then Some (f :: cs)
          else None
      end
  end.

(** A format is the byte-order mark ["<"] followed by format characters. *)
Definition parse (fmt : string) : option (list code) :=
  match fmt with
  | String c s' => if Ascii.eqb c "<" then codes s' else None
  | EmptyString => None
  end.

Definition calcsize (cs : list code) : nat :=
  fold_right (fun c n => size c + n) 0 cs.

Definition item (c : code) (bs : list byte) : Py.value :=
  match c with
  | B => Py.Int (le_uint bs)
  | f => Py.Float (binary32_of_bits (le_uint bs))
  end.

Fixpoint items (cs : list code) (bs : list byte) : list Py.value :=
  match cs with
  | [] => []
  | c :: cs' => item c (firstn (size c) bs) :: items cs' (skipn (size c) bs)
  end.

(** [struct.unpack_from(fmt, buffer, offset)]: a tuple, or [struct.error]
    when fewer than [calcsize(fmt)] bytes follow [offset]. *)
Definition unpack_from (fmt : string) (buffer : list byte) (offset : nat)
  : Py.value + Py.exn :=
  match parse fmt with
  | None => inr Py.struct_error
  | Some cs =>
      if calcsize cs + offset <=? length buffer
      then inl (Py.Tuple (items cs (skipn offset buffer)))
      else inr Py.struct_error
  end.

End struct.

(** ** The world of a [RazorIMU] object *)

(** What the byte source does once a [read] asks for more bytes than remain:
    return what it has (a read timeout, or a file-like object at its end),
    raise [SerialException] (the device went away), or never return (a port
    opened without timeout on a silent line). *)
Inductive exhausted : Type := ShortRead | Disconnect | Silent.

(** A [serial.Serial] object: the bytes still to come are [rx]. *)
Record Serial : Type := mkSerial {
  port : string;
  baudrate : Z;
  is_open : bool;
  rx : list byte;
  at_end : exhausted }.

Definition with_rx (bs : list byte) (d : Serial) : Serial :=
  {| port := port d; baudrate := baudrate d; is_open := is_open d;
     rx := bs; at_end := at_end d |}.

Definition with_is_open (b : bool) (d : Serial) : Serial :=
  {| port := port d; baudrate := baudrate d; is_open := b;
     rx := rx d; at_end := at_end d |}.

Inductive Thread : Type := Alive | Dead.

Inductive level : Type := INFO | WARNING.

(** What an observer of a run can see, in order. *)
Inductive event : Type :=
| Logged (logger : string) (lvl : level) (msg : string)
| Polled (flag : bool)
| Read (size : nat) (data : list byte)
| Put (item : Py.dict)
| Started (thread_name : string)
| Excepthook (e : Py.exn)
| Closed (p : string).

(** The attributes of the object, as [__init__] declares them ([logFile] and
    [orders] are never used again and are left out). *)
Record RazorIMU : Type := mkRazorIMU {
  name : string;
  device : option Serial;
  isOpen : Py.value;
  baudRate : Z;
  openError : Z;
  dataQueue : option (list Py.dict);
  exitFlag : bool;
  log : option string;
  threadID : option Thread }.

(** [RazorIMU(sensor_name)]. [device] starts as the empty string, which has
    none of the methods of a port: it is [None] here. *)
Definition __init__ (sensor_name : string) : RazorIMU :=
  {| name := sensor_name;
     device := None;
     isOpen := Py.Int 0;
     baudRate := 500000;
     openError := 0;
     dataQueue := None;
     exitFlag := false;
     log := None;
     threadID := None |}.

(** The object together with the trace of what it did and the number of
    clock readings taken so far. *)
Record State : Type := mkState {
  self : RazorIMU;
  trace : list event;
  clock : nat }.

(** What the program cannot decide: the file system, the port behind a path,
    the wall clock (already formatted as the decoder formats it; its n-th
    reading is [now n]), and the moment, counted in events of the trace, at
    which another thread sets the exit flag. *)
Record Env : Type := mkEnv {
  path_exists : string -> bool;
  open_port : string -> Z -> Serial + Py.exn;
  now : nat -> string;
  shutdown_at : option nat }.

(** ** A monad for methods: state, exceptions, and calls that never return *)

Inductive outcome (A : Type) : Type :=
| Returns (a : A)
| Raises (e : Py.exn)
| Blocks
| Diverges.

Arguments Raises {A} e.
Arguments Blocks {A}.
Arguments Diverges {A}.

Definition M (A : Type) : Type := Env -> State -> outcome A * State.

Definition ret {A} (a : A) : M A := fun _ s => (Returns a, s).

Definition bind {A B} (m : M A) (k : A -> M B) : M B :=
  fun env s =>
    match m env s with
    | (Returns a, s') => k a env s'
    | (Raises e, s') => (Raises e, s')
    | (Blocks, s') => (Blocks, s')
    | (Diverges, s') => (Diverges, s')
    end.

Definition raise {A} (e : Py.exn) : M A := fun _ s => (Raises e, s).

Notation "x <- m ;; k" := (bind m (fun x => k))
  (at level 61, m at next level, right associativity).
Notation "m ;; k" := (bind m (fun _ => k))
  (at level 61, right associativity).

Definition lift {A} (r : A + Py.exn) : M A :=
  match r with inl a => ret a | inr e => raise e end.

Definition get_self : M RazorIMU := fun _ s => (Returns (self s), s).

Definition modify_self (f : RazorIMU -> RazorIMU) : M unit :=
  fun _ s => (Returns tt, {| self := f (self s); trace := trace s; clock := clock s |}).

Definition emit (ev : event) : M unit :=
  fun _ s => (Returns tt, {| self := self s; trace := trace s ++ [ev]; clock := clock s |}).

(** Attribute assignments. *)
Definition set_device (d : option Serial) (o : RazorIMU) : RazorIMU :=
  {| name := name o; device := d; isOpen := isOpen o; baudRate := baudRate o;
     openError := openError o; dataQueue := dataQueue o; exitFlag := exitFlag o;
     log := log o; threadID := threadID o |}.

Definition set_isOpen (v : Py.value) (o : RazorIMU) : RazorIMU :=
  {| name := name o; device := device o; isOpen := v; baudRate := baudRate o;
     openError := openError o; dataQueue := dataQueue o; exitFlag := exitFlag o;
     log := log o; threadID := threadID o |}.

Definition set_baudRate (b : Z) (o : RazorIMU) : RazorIMU :=
  {| name := name o; device := device o; isOpen := isOpen o; baudRate := b;
     openError := openError o; dataQueue := dataQueue o; exitFlag := exitFlag o;
     log := log o; threadID := threadID o |}.

Definition set_dataQueue (q : option (list Py.dict)) (o : RazorIMU) : RazorIMU :=
  {| name := name o; device := device o; isOpen := isOpen o; baudRate := baudRate o;
     openError := openError o; dataQueue := q; exitFlag := exitFlag o;
     log := log o; threadID := threadID o |}.

Definition set_exitFlag (b : bool) (o : RazorIMU) : RazorIMU :=
  {| name := name o; device := device o; isOpen := isOpen o; baudRate := baudRate o;
     openError := openError o; dataQueue := dataQueue o; exitFlag := b;
     log := log o; threadID := threadID o |}.

Definition set_log (l : option string) (o : RazorIMU) : RazorIMU :=
  {| name := name o; device := device o; isOpen := isOpen o; baudRate := baudRate o;
     openError := openError o; dataQueue := dataQueue o; exitFlag := exitFlag o;
     log := l; threadID := threadID o |}.

Definition set_threadID (t : option Thread) (o : RazorIMU) : RazorIMU :=
  {| name := name o; device := device o; isOpen := isOpen o; baudRate := baudRate o;
     openError := openError o; dataQueue := dataQueue o; exitFlag := exitFlag o;
     log := log o; threadID := t |}.

(** ** Collaborators: logger, event flag, clock, queue, serial port *)

(** [self.log.info(msg)] and [self.log.warning(msg)]; [self.log] is [None]
    until [begin] has run. *)
Definition log_record (lvl : level) (msg : string) : M unit :=
  o <- get_self ;;
  match log o with
  | None => raise Py.AttributeError
  | Some logger => emit (Logged logger lvl msg)
  end.

(** Whether the other thread has already set the flag when the trace has
    length [n]. *)
Definition set_by (env : Env) (n : nat) : bool :=
  match shutdown_at env with
  | Some t => t <=? n
  | None => false
  end.

(** [self.exitFlag.isSet()]. *)
Definition isSet : M bool :=
  fun env s =>
    let flag := exitFlag (self s) || set_by env (length (trace s)) in
    (Returns flag,
     {| self := set_exitFlag flag (self s);
        trace := trace s ++ [Polled flag];
        clock := clock s |}).

(** [datetime.now()], formatted. *)
Definition datetime_now : M string :=
  fun env s =>
    (Returns (now env (clock s)),
     {| self := self s; trace := trace s; clock := S (clock s) |}).

(** [self.dataQueue.put_nowait(item)] on an unbounded [queue.Queue], as
    [main] creates it: the item goes to the back. [self.dataQueue] is [None]
    until [begin] has stored the caller's queue. *)
Definition put_nowait (item : Py.dict) : M unit :=
  o <- get_self ;;
  match dataQueue o with
  | None => raise Py.AttributeError
  | Some q =>
      modify_self (set_dataQueue (Some (q ++ [item]))) ;;
      emit (Put item)
  end.

(** [device.read(size)]. *)
Definition read (size : nat) : M (list byte) :=
  o <- get_self ;;
  match device o with
  | None => raise Py.AttributeError
  | Some d =>
      if negb (is_open d) then raise Py.SerialException
      else if size <=? length (rx d) then
        modify_self (set_device (Some (with_rx (skipn size (rx d)) d))) ;;
        emit (Read size (firstn size (rx d))) ;;
        ret (firstn size (rx d))
      else
        match at_end d with
        | ShortRead =>
            modify_self (set_device (Some (with_rx [] d))) ;;
            emit (Read size (rx d)) ;;
            ret (rx d)
        | Disconnect => raise Py.SerialException
        | Silent => fun _ s => (Blocks, s)
        end
  end.

(** [ord(c)] of a bytes object: its only byte, [TypeError] for any other
    length. *)
Definition ord (c : list byte) : M Z :=
  match c with
  | [b] => ret (byte_val b)
  | _ => raise Py.TypeError
  end.

(** ** The class *)

Definition keys : list string :=
  ["syncAA"; "syncBB"; "ID"; "Acc"; "Gyro"; "Mag"; "euler"; "crc8maxim"]%string.

(** Modelled from the spec: [crcmod]'s predefined ['crc-8-maxim'] function is
    not part of the repository; section 4.1 gives its parameters (polynomial
    0x31, initial value 0, input and output reflected, no final XOR). The
    reflected polynomial is 0x8C. *)
Fixpoint crc8_maxim_bits (n : nat) (crc : Z) : Z :=
  match n with
  | O => crc
  | S n' =>
      crc8_maxim_bits n'
        (if Z.testbit crc 0 then Z.lxor (Z.shiftr crc 1) 140 else Z.shiftr crc 1)
  end.

(** Modelled from the spec: the CRC-8/MAXIM of a byte string, one byte after
    the other from the initial value 0. Its value on ["123456789"] is the
    published 0xA1. *)
Definition crc8_maxim (data : list byte) : Z :=
  fold_left (fun crc b => crc8_maxim_bits 8 (Z.lxor crc (byte_val b))) data 0%Z.

(** [RazorIMU.crc8_value(i)]. *)
Definition crc8_value (i : list byte) : Z := crc8_maxim i.

Definition ask : M Env := fun env s => (Returns env, s).

(** How a port shows in a log line: pyserial prints the whole configuration
    of the object, of which only the port name is kept; the empty string that
    [__init__] stores prints as nothing. *)
Definition device_str (d : option Serial) : string :=
  match d with
  | None => ""
  | Some p => port p
  end.

(** [begin(self, data_queue, com_port, baud_rate)]. Creating the thread
    object and starting it are one step, and the closing [sleep(0.1)] does
    nothing here. *)
Definition begin (data_queue : list Py.dict) (com_port : string) (baud_rate : Z)
  : M bool :=
  o <- get_self ;;
  modify_self (set_log (Some (name o))) ;;
  env <- ask ;;
  if negb (path_exists env com_port) then
    log_record WARNING ("Port is not available: " ++ com_port) ;;
    ret false
  else
    d <- lift (open_port env com_port baud_rate) ;;
    modify_self (set_device (Some d)) ;;
    if negb (is_open d) then
      log_record WARNING ("Error opening port: " ++ com_port) ;;
      modify_self (set_isOpen (Py.Bool false)) ;;
      ret false
    else
      modify_self (set_baudRate baud_rate) ;;
      modify_self (set_isOpen (Py.Bool true)) ;;
      modify_self (set_dataQueue (Some data_queue)) ;;
      modify_self (set_threadID (Some Alive)) ;;
      emit (Started "Logger") ;;
      log_record INFO "Started Logger Thread" ;;
      ret true.

(** Binding in the sum that [struct.unpack_from] returns. *)
Definition and_then {A C} (r : A + Py.exn) (k : A -> C + Py.exn) : C + Py.exn :=
  match r with inl a => k a | inr e => inr e end.

(** [t[0]] and the elements of a tuple. *)
Definition first_item (t : Py.value) : Py.value + Py.exn :=
  match t with
  | Py.Tuple (v :: _) | Py.List (v :: _) => inl v
  | Py.Tuple [] | Py.List [] => inr Py.IndexError
  | _ => inr Py.TypeError
  end.

Definition elements (t : Py.value) : list Py.value :=
  match t with
  | Py.Tuple l | Py.List l => l
  | _ => []
  end.

(** The straight-line part of the loop body between [device.read(50)] and
    [datetime.now()]: it fills [data_frame] slot by slot from [buffer] and
    zips it with [keys]. [data_frame[k] = [0, 0, 0]] followed by
    [data_frame[k][0:] = t] leaves the list of the elements of [t]. *)
Definition unpack_data_frame (syncAA syncBB : Z) (buffer : list byte)
  : Py.dict + Py.exn :=
  let data_frame := repeat (Py.Int 0) 8 in
  let data_frame := Py.list_set data_frame 0 (Py.Int syncAA) in
  let data_frame := Py.list_set data_frame 1 (Py.Int syncBB) in
  and_then (struct.unpack_from "<B" buffer 0) (fun t =>
  let data_frame := Py.list_set data_frame 2 t in
  and_then (first_item t) (fun v =>
  let data_frame := Py.list_set data_frame 2 v in
  let data_frame := Py.list_set data_frame 3 (Py.List [Py.Int 0; Py.Int 0; Py.Int 0]) in
  and_then (struct.unpack_from "<fff" buffer 1) (fun t =>
  let data_frame := Py.list_set data_frame 3 (Py.List (elements t)) in
  let data_frame := Py.list_set data_frame 4 (Py.List [Py.Int 0; Py.Int 0; Py.Int 0]) in
  and_then (struct.unpack_from "<fff" buffer 13) (fun t =>
  let data_frame := Py.list_set data_frame 4 (Py.List (elements t)) in
  let data_frame := Py.list_set data_frame 5 (Py.List [Py.Int 0; Py.Int 0; Py.Int 0]) in
  and_then (struct.unpack_from "<fff" buffer 25) (fun t =>
  let data_frame := Py.list_set data_frame 5 (Py.List (elements t)) in
  let data_frame := Py.list_set data_frame 6 (Py.List [Py.Int 0; Py.Int 0; Py.Int 0]) in
  and_then (struct.unpack_from "<fff" buffer 37) (fun t =>
  let data_frame := Py.list_set data_frame 6 (Py.List (elements t)) in
  and_then (struct.unpack_from "<B" buffer 49) (fun t =>
  let data_frame := Py.list_set data_frame 7 t in
  and_then (first_item t) (fun v =>
  let data_frame := Py.list_set data_frame 7 v in
  inl (Py.dict_of_zip keys data_frame))))))))).

(** The body of the [while] loop of [parseResponses]: one sync attempt. Its
    result is the value of [index] for the next pass. *)
Definition parseResponses_body (index : Z) : M Z :=
  c <- read 1 ;;
  syncAA <- ord c ;;
  if (syncAA =? 0xAA)%Z then
    c <- read 1 ;;
    syncBB <- ord c ;;
    if (syncBB =? 0xBB)%Z then
      buffer <- read 50 ;;
      data_frame <- lift (unpack_data_frame syncAA syncBB buffer) ;;
      my_time <- datetime_now ;;
      let outMessage := [("Time", Py.Str my_time); ("Index", Py.Int index)]%string in
      let outMessage := Py.dict_update outMessage data_frame in
      put_nowait outMessage ;;
      ret (index + 1)%Z
    else ret index
  else ret index.

(** [while not self.exitFlag.isSet(): ...], unrolled at most [fuel] times. *)
Fixpoint parseResponses_loop (fuel : nat) (index : Z) : M unit :=
  match fuel with
  | O => fun _ s => (Diverges, s)
  | S fuel' =>
      stop <- isSet ;;
      if stop then ret tt
      else
        index' <- parseResponses_body index ;;
        parseResponses_loop fuel' index'
  end.

(** Every pass that does not end the loop takes at least one byte from the
    port, so one pass more than there are bytes is enough. *)
Definition passes (o : RazorIMU) : nat :=
  match device o with
  | Some d => S (length (rx d))
  | None => 1
  end.

(** [parseResponses(self)], the target of the thread. *)
Definition parseResponses : M unit :=
  log_record INFO "Entering Thread logger" ;;
  o <- get_self ;;
  if negb (Py.truthy (isOpen o)) then
    log_record WARNING ("Port is not open: " ++ device_str (device o)) ;;
    log_record INFO "Exiting Thread logger" ;;
    ret tt
  else
    parseResponses_loop (passes o) 0 ;;
    log_record INFO "Exiting Thread logger" ;;
    ret tt.

(** What the thread started by [begin] does with its target: an exception
    that leaves [parseResponses] goes to [threading.excepthook], which prints
    it, and the thread ends. *)
Definition Thread_run : M unit :=
  fun env s =>
    match parseResponses env s with
    | (Returns _, s') => modify_self (set_threadID (Some Dead)) env s'
    | (Raises e, s') =>
        (emit (Excepthook e) ;; modify_self (set_threadID (Some Dead))) env s'
    | (Blocks, s') => (Blocks, s')
    | (Diverges, s') => (Diverges, s')
    end.

(** [self.threadID.join()]: waits for the thread to end and returns [None]
    whatever ended it. *)
Definition join : M unit :=
  o <- get_self ;;
  match threadID o with
  | None => raise Py.AttributeError
  | Some Dead => ret tt
  | Some Alive => fun _ s => (Blocks, s)
  end.

(** [self.device.close()]. *)
Definition close : M unit :=
  o <- get_self ;;
  match device o with
  | None => raise Py.AttributeError
  | Some d =>
      modify_self (set_device (Some (with_is_open false d))) ;;
      emit (Closed (port d))
  end.

(** [shutdown(self)]. *)
Definition shutdown : M bool :=
  modify_self (set_exitFlag true) ;;
  join ;;
  close ;;
  modify_self (set_isOpen (Py.Bool false)) ;;
  log_record INFO "Shutting down" ;;
  ret true.

(** The main thread meets the decoder thread where the latter has got to: a
    thread that has ended, by a return or by an exception, is dead; one that
    waits in a [read] that never returns is still alive, and the main thread
    goes on without it. *)
Definition meanwhile (A : Type) (thread : M unit) (k : M A) : M A :=
  fun env s =>
    match thread env s with
    | (Diverges, s') => (Diverges, s')
    | (_, s') => k env s'
    end.

(** A whole session as [main] drives it: [begin], the thread it starts, then
    [shutdown], which [main] calls whatever the thread has done. When [begin]
    does not return [True], [main] stops there. *)
Definition session (data_queue : list Py.dict) (com_port : string) (baud_rate : Z)
  : M bool :=
  ok <- begin data_queue com_port baud_rate ;;
  if ok then meanwhile Thread_run shutdown else ret false.

(** ** The wire format

    The message that section 6 of the specification prescribes for the 50
    bytes that follow the two sync markers, written byte by byte. It is the
    reference the decoder is compared with. *)

Definition byte_at (buffer : list byte) (offset : nat) : Z :=
  byte_val (nth offset buffer x00).

Definition u8_at (buffer : list byte) (offset : nat) : Py.value :=
  Py.Int (byte_at buffer offset).

Definition f32_at (buffer : list byte) (offset : nat) : Py.value :=
  Py.Float (binary32_of_bits
    (byte_at buffer offset
     + 2 ^ 8 * byte_at buffer (offset + 1)
     + 2 ^ 16 * byte_at buffer (offset + 2)
     + 2 ^ 24 * byte_at buffer (offset + 3))).

Definition vec3_at (buffer : list byte) (offset : nat) : Py.value :=
  Py.List [f32_at buffer offset; f32_at buffer (offset + 4); f32_at buffer (offset + 8)].

Definition wire_message (time : string) (index : Z) (buffer : list byte) : Py.dict :=
  [("Time", Py.Str time);
   ("Index", Py.Int index);
   ("syncAA", Py.Int 0xAA);
   ("syncBB", Py.Int 0xBB);
   ("ID", u8_at buffer 0);
   ("Acc", vec3_at buffer 1);
   ("Gyro", vec3_at buffer 13);
   ("Mag", vec3_at buffer 25);
   ("euler", vec3_at buffer 37);
   ("crc8maxim", u8_at buffer 49)]%string.

(** ** States of a running decoder *)

(** The object reads from the open port [d] and feeds the queue, which holds
    [q]. *)
Definition listening (s : State) (d : Serial) (q : list Py.dict) : Prop :=
  device (self s) = Some d /\ is_open d = true /\ dataQueue (self s) = Some q.

(** The state after the port has become [d], the queue [q], the events [evs]
    have happened and the clock has been read [k] times. *)
Definition after (d : Serial) (q : list Py.dict) (evs : list event) (k : nat)
  (s : State) : State :=
  {| self := set_dataQueue (Some q) (set_device (Some d) (self s));
     trace := trace s ++ evs;
     clock := k + clock s |}.

(** The port runs dry before the pass is complete. *)
Definition starved (bs : list byte) : Prop :=
  bs = [] \/ bs = [xaa] \/ exists rest, bs = xaa :: xbb :: rest /\ length rest < 50.

(** The reads that a starved pass completes, the bytes it leaves, and the
    size and the exception of the read that comes up short. *)
Definition whole_reads (bs : list byte) : list event :=
  match bs with
  | [] => []
  | [a] => [Read 1 [a]]
  | a :: b :: _ => [Read 1 [a]; Read 1 [b]]
  end.

Definition left_over (bs : list byte) : list byte :=
  match bs with
  | _ :: _ :: rest => rest
  | _ => []
  end.

Definition short_read (bs : list byte) : event :=
  match bs with
  | _ :: _ :: rest => Read 50 rest
  | _ => Read 1 []
  end.

Definition short_exn (bs : list byte) : Py.exn :=
  match bs with
  | _ :: _ :: _ => Py.struct_error
  | _ => Py.TypeError
  end.

(** Everything one pass of the loop body can do, by the bytes the port still
    holds. *)
Inductive pass (env : Env) (index : Z) (s : State) (d : Serial) (q : list Py.dict)
  : outcome Z * State -> Prop :=
| pass_noise b rest :
    rx d = b :: rest ->
    byte_val b <> 0xAA%Z ->
    pass env index s d q
      (Returns index, after (with_rx rest d) q [Read 1 [b]] 0 s)
| pass_false_start b rest :
    rx d = xaa :: b :: rest ->
    byte_val b <> 0xBB%Z ->
    pass env index s d q
      (Returns index, after (with_rx rest d) q [Read 1 [xaa]; Read 1 [b]] 0 s)
| pass_frame body rest :
    rx d = xaa :: xbb :: body ++ rest ->
    length body = 50 ->
    pass env index s d q
      (Returns (index + 1)%Z,
       after (with_rx rest d)
         (q ++ [wire_message (now env (clock s)) index body])
         [Read 1 [xaa]; Read 1 [xbb]; Read 50 body;
          Put (wire_message (now env (clock s)) index body)] 1 s)
| pass_short :
    starved (rx d) ->
    at_end d = ShortRead ->
    pass env index s d q
      (Raises (short_exn (rx d)),
       after (with_rx [] d) q (whole_reads (rx d) ++ [short_read (rx d)]) 0 s)
| pass_disconnect :
    starved (rx d) ->
    at_end d = Disconnect ->
    pass env index s d q
      (Raises Py.SerialException,
       after (with_rx (left_over (rx d)) d) q (whole_reads (rx d)) 0 s)
| pass_silent :
    starved (rx d) ->
    at_end d = Silent ->
    pass env index s d q
      (Blocks, after (with_rx (left_over (rx d)) d) q (whole_reads (rx d)) 0 s).

(** ** Vocabulary of the properties *)

(** The state once a poll has seen the flag set. *)
Definition stopped (s : State) : State :=
  {| self := set_exitFlag true (self s);
     trace := trace s ++ [Polled true];
     clock := clock s |}.

(** A running decoder: [begin] has set the logger [lg], opened the port and
    stored the queue. *)
Definition running (s : State) (lg : string) (d : Serial) (q : list Py.dict) : Prop :=
  log (self s) = Some lg /\ Py.truthy (isOpen (self s)) = true /\ listening s d q.

(** The bytes of consecutive frames with the given 50-byte bodies, and the
    messages they decode to when the first takes index [index] and the
    [k]-th reading of the clock. *)
Fixpoint frames_stream (bodies : list (list byte)) : list byte :=
  match bodies with
  | [] => []
  | body :: bodies' => xaa :: xbb :: body ++ frames_stream bodies'
  end.

Fixpoint messages (env : Env) (k : nat) (index : Z) (bodies : list (list byte))
  : list Py.dict :=
  match bodies with
  | [] => []
  | body :: bodies' =>
      wire_message (now env k) index body :: messages env (S k) (index + 1) bodies'
  end.

Definition is_put (e : event) : bool :=
  match e with Put _ => true | _ => false end.

Definition is_read (e : event) : bool :=
  match e with Read _ _ => true | _ => false end.

Definition is_poll (e : event) : bool :=
  match e with Polled _ => true | _ => false end.

Definition count (f : event -> bool) (evs : list event) : nat :=
  length (filter f evs).

(** The events of one pass: no poll, at most three reads, at most one
    frame. *)
Definition quiet (evs : list event) : Prop :=
  count is_poll evs = 0 /\ count is_read evs <= 3 /\ count is_put evs <= 1.

(** The events of the loop: every pass opens with one poll that found the
    flag clear; the loop ends with the poll that finds it set, or inside a
    pass that raises or blocks. *)
Inductive run_trace : list event -> Prop :=
| run_exit : run_trace [Polled true]
| run_abort evs : quiet evs -> run_trace (Polled false :: evs)
| run_pass evs rest :
    quiet evs -> run_trace rest -> run_trace (Polled false :: evs ++ rest).

(** Of the events [evs], which follow the first [n0] events of the trace,
    those that happen once the other thread has set the flag. *)
Definition late (env : Env) (n0 : nat) (evs : list event) : list event :=
  match shutdown_at env with
  | Some t => skipn (t - n0) evs
  | None => []
  end.

(** What is allowed to happen once the flag has been set: the rest of the
    pass under way, and the poll that ends the loop. *)
Definition cancelled (evs : list event) : Prop :=
  count is_put evs <= 1 /\ count is_read evs <= 3 /\ ~ In (Polled false) evs.

Definition sample_port (bs : list byte) (e : exhausted) : Serial :=
  {| port := "/dev/ttyUSB0"; baudrate := 500000; is_open := true;
     rx := bs; at_end := e |}.

(** The object as a successful [begin] leaves it, reading [bs]. *)
Definition sample_state (bs : list byte) (e : exhausted) : State :=
  {| self :=
       {| name := "RazorIMU 1"; device := Some (sample_port bs e);
          isOpen := Py.Bool true; baudRate := 500000; openError := 0;
          dataQueue := Some []; exitFlag := false; log := Some "RazorIMU 1"%string;
          threadID := Some Alive |};
     trace := [];
     clock := 0 |}.

Definition sample_env (bs : list byte) (e : exhausted) (t : option nat) : Env :=
  {| path_exists := fun p => String.eqb p "/dev/ttyUSB0";
     open_port := fun p b =>
       inl {| port := p; baudrate := b; is_open := true; rx := bs; at_end := e |};
     now := fun n => "2016-12-22 10:00:00.000"%string;
     shutdown_at := t |}.

(** Sensor 7 reporting 1.0 on all twelve channels; its CRC-8/MAXIM is 0xAB. *)
Definition sample_payload : list byte :=
  x07 :: concat (repeat [x00; x00; x80; x3f] 12).

(** The exception that ends the loop when the port has nothing more to give:
    [ord] of an empty read, [struct] on a short body, or the port's own. *)
Definition io_failure (e : exhausted) (x : Py.exn) : Prop :=
  match e with
  | ShortRead => x = Py.TypeError \/ x = Py.struct_error
  | Disconnect => x = Py.SerialException
  | Silent => False
  end.

(** ** Accounting for a run *)

(** The bytes that the reads of a trace returned, in order, and the items
    that its puts handed to the queue, in order. *)
Definition read_data (evs : list event) : list byte :=
  flat_map (fun e => match e with Read _ data => data | _ => [] end) evs.

Definition put_items (evs : list event) : list Py.dict :=
  flat_map (fun e => match e with Put item => [item] | _ => [] end) evs.

(** The messages carry the indices [index], [index + 1], ... in order. *)
Definition indexed_from (index : Z) (msgs : list Py.dict) : Prop :=
  forall n,
    n < length msgs ->
    Py.dict_get (nth n msgs []) "Index" = Some (Py.Int (index + Z.of_nat n)).

(** A message that was laid out from a 50-byte body. *)
Definition decoded (m : Py.dict) : Prop :=
  exists time index body, length body = 50 /\ m = wire_message time index body.

(** The state in which a loop ends: with the poll that saw the flag, or in
    the middle of a pass. *)
Definition ended (stop : bool) (s : State) : State :=
  if stop then stopped s else s.

(** ** The console printer *)

Module Console.

(** What can go wrong when [printData] picks a field out of a message. *)
Inductive failure : Type :=
| KeyError (key : string)
| IndexError (key : string) (i : nat)
| TypeError (key : string).

(** [newData[key]]. *)
Definition item (newData : Py.dict) (key : string) : Py.value + failure :=
  match Py.dict_get newData key with
  | Some v => inl v
  | None => inr (KeyError key)
  end.

(** [newData[key][i]]. *)
Definition item_at (newData : Py.dict) (key : string) (i : nat)
  : Py.value + failure :=
  match Py.dict_get newData key with
  | None => inr (KeyError key)
  | Some (Py.List l) | Some (Py.Tuple l) =>
      match nth_error l i with
      | Some v => inl v
      | None => inr (IndexError key i)
      end
  | Some _ => inr (TypeError key)
  end.

Fixpoint all {A} (rs : list (A + failure)) : list A + failure :=
  match rs with
  | [] => inl []
  | inr e :: _ => inr e
  | inl a :: rs' =>
      match all rs' with
      | inl l => inl (a :: l)
      | inr e => inr e
      end
  end.

(** The sixteen arguments that [printData] passes to [format] for one
    message, evaluated left to right; the formatting itself is not part of
    this. *)
Definition arguments (newData : Py.dict) : list Py.value + failure :=
  all [item newData "Index"; item newData "Time"; item newData "ID";
       item_at newData "Acc" 0; item_at newData "Acc" 1; item_at newData "Acc" 2;
       item_at newData "Gyro" 0; item_at newData "Gyro" 1; item_at newData "Gyro" 2;
       item_at newData "Mag" 0; item_at newData "Mag" 1; item_at newData "Mag" 2;
       item_at newData "euler" 0; item_at newData "euler" 1;
       item_at newData "euler" 2; item newData "crc8maxim"].

End Console.

(** ** The older copy of the class, [lib/razorIMU.py] *)

Module Lib.

(** The body of the loop of [parseResponces]: that of [parseResponses] with
    the counter stored under [Indice]. *)
Definition parseResponces_body (indice : Z) : M Z :=
  c <- read 1 ;;
  syncAA <- ord c ;;
  if (syncAA =? 0xAA)%Z then
    c <- read 1 ;;
    syncBB <- ord c ;;
    if (syncBB =? 0xBB)%Z then
      serialBuffer <- read 50 ;;
      dataFrame <- lift (unpack_data_frame syncAA syncBB serialBuffer) ;;
      myTime <- datetime_now ;;
      let outMessage := [("Time", Py.Str myTime); ("Indice", Py.Int indice)]%string in
      let outMessage := Py.dict_update outMessage dataFrame in
      put_nowait outMessage ;;
      ret (indice + 1)%Z
    else ret indice
  else ret indice.

Fixpoint parseResponces_loop (fuel : nat) (indice : Z) : M unit :=
  match fuel with
  | O => fun _ s => (Diverges, s)
  | S fuel' =>
      stop <- isSet ;;
      if stop then ret tt
      else
        indice' <- parseResponces_body indice ;;
        parseResponces_loop fuel' indice'
  end.

(** [parseResponces(self)]; the port is the attribute [myPort] there. *)
Definition parseResponces : M unit :=
  log_record INFO "Entering Thread logger" ;;
  o <- get_self ;;
  if negb (Py.truthy (isOpen o)) then
    log_record WARNING ("Port is not open: " ++ device_str (device o)) ;;
    log_record INFO "Exiting Thread logger" ;;
    ret tt
  else
    parseResponces_loop (passes o) 0 ;;
    log_record INFO "Exiting Thread logger" ;;
    ret tt.

End Lib.

(** A message, an event and a state of the newer class as the older one
    would have them: [Index] is called [Indice]. *)
Definition as_lib_entry (kv : string * Py.value) : string * Py.value :=
  if String.eqb (fst kv) "Index" then ("Indice"%string, snd kv) else kv.

Definition as_lib (m : Py.dict) : Py.dict := map as_lib_entry m.

Definition as_lib_event (e : event) : event :=
  match e with
  | Put item => Put (as_lib item)
  | _ => e
  end.

Definition as_lib_state (s : State) : State :=
  {| self := set_dataQueue (option_map (map as_lib) (dataQueue (self s))) (self s);
     trace := map as_lib_event (trace s);
     clock := clock s |}.

(** The second method does on the renamed state what the first does on the
    state. *)
Definition simulates {A} (m1 m2 : M A) : Prop :=
  forall env s,
    m2 env (as_lib_state s) = (fst (m1 env s), as_lib_state (snd (m1 env s))).

(** * Properties *)

(** ** Bytes *)

Lemma byte_val_inj (a b : byte) : byte_val a = byte_val b -> a = b.
Proof.
  unfold byte_val. intros H. apply N2Z.inj in H.
  assert (E : Byte.of_N (Byte.to_N a) = Byte.of_N (Byte.to_N b)) by (rewrite H; reflexivity).
  rewrite !Byte.of_to_N in E. congruence.
Qed.

Lemma crc8_maxim_check :
  crc8_maxim [x31; x32; x33; x34; x35; x36; x37; x38; x39] = 0xA1%Z.
Proof. reflexivity. Qed.

Lemma le_uint_1 (a : byte) : le_uint [a] = byte_val a.
Proof. simpl. lia. Qed.

Lemma le_uint_4 (a b c d : byte) :
  le_uint [a; b; c; d]
  = (byte_val a + 2 ^ 8 * byte_val b + 2 ^ 16 * byte_val c + 2 ^ 24 * byte_val d)%Z.
Proof. cbn [le_uint]. lia. Qed.

#[global] Arguments byte_val : simpl never.
#[global] Arguments le_uint : simpl never.
#[global] Arguments binary32_of_bits : simpl never.

(** ** The straight-line decoding *)

Lemma unpack_data_frame_full (a b : Z) (buffer : list byte) :
  length buffer = 50 ->
  unpack_data_frame a b buffer
  = inl [("syncAA", Py.Int a); ("syncBB", Py.Int b);
         ("ID", u8_at buffer 0); ("Acc", vec3_at buffer 1);
         ("Gyro", vec3_at buffer 13); ("Mag", vec3_at buffer 25);
         ("euler", vec3_at buffer 37); ("crc8maxim", u8_at buffer 49)]%string.
Proof.
  intros H.
  do 50 (destruct buffer as [|? buffer]; [discriminate H|]).
  destruct buffer; [|discriminate H]. clear H.
  unfold u8_at, vec3_at, f32_at, byte_at. cbn.
  rewrite !le_uint_1, !le_uint_4. reflexivity.
Qed.

Lemma unpack_from_eq (fmt : string) (cs : list struct.code) (buffer : list byte)
  (offset : nat) :
  struct.parse fmt = Some cs ->
  struct.unpack_from fmt buffer offset
  = if struct.calcsize cs + offset <=? length buffer
    then inl (Py.Tuple (struct.items cs (skipn offset buffer)))
    else inr Py.struct_error.
Proof.
  intros H. unfold struct.unpack_from. rewrite H. reflexivity.
Qed.

Lemma unpack_data_frame_short (a b : Z) (buffer : list byte) :
  length buffer < 50 ->
  unpack_data_frame a b buffer = inr Py.struct_error.
Proof.
  intros H. unfold unpack_data_frame.
  rewrite (@unpack_from_eq "<B" [struct.B] buffer 0 eq_refl).
  rewrite (@unpack_from_eq "<B" [struct.B] buffer 49 eq_refl).
  rewrite (@unpack_from_eq "<fff" [struct.f; struct.f; struct.f] buffer 1 eq_refl).
  rewrite (@unpack_from_eq "<fff" [struct.f; struct.f; struct.f] buffer 13 eq_refl).
  rewrite (@unpack_from_eq "<fff" [struct.f; struct.f; struct.f] buffer 25 eq_refl).
  rewrite (@unpack_from_eq "<fff" [struct.f; struct.f; struct.f] buffer 37 eq_refl).
  cbn [struct.calcsize struct.size fold_right Nat.add].
  repeat match goal with
         | |- context [?n <=? length buffer] =>
             destruct (Nat.leb_spec n (length buffer)); cbn [and_then]
         end;
    try reflexivity.
  lia.
Qed.

(** ** One pass of the loop *)

Lemma after_here (s : State) (d : Serial) (q : list Py.dict) :
  listening s d q -> after d q [] 0 s = s.
Proof.
  destruct s as [[] tr ck]. unfold listening, after. cbn.
  intros (-> & _ & ->). rewrite app_nil_r. reflexivity.
Qed.

Lemma after_after (d1 d2 : Serial) (q1 q2 : list Py.dict) (e1 e2 : list event)
  (k1 k2 : nat) (s : State) :
  after d2 q2 e2 k2 (after d1 q1 e1 k1 s) = after d2 q2 (e1 ++ e2) (k2 + k1) s.
Proof.
  unfold after. cbn. rewrite app_assoc, Nat.add_assoc. reflexivity.
Qed.

Lemma listening_after (d : Serial) (q : list Py.dict) (evs : list event) (k : nat)
  (s : State) :
  is_open d = true -> listening (after d q evs k s) d q.
Proof. intros H. unfold listening. cbn. auto. Qed.

Lemma with_rx_same (d : Serial) : with_rx (rx d) d = d.
Proof. destruct d. reflexivity. Qed.

Lemma with_rx_with_rx (a b : list byte) (d : Serial) :
  with_rx a (with_rx b d) = with_rx a d.
Proof. reflexivity. Qed.

Lemma read_enough (env : Env) (s : State) (d : Serial) (q : list Py.dict) (n : nat) :
  listening s d q ->
  n <= length (rx d) ->
  read n env s
  = (Returns (firstn n (rx d)),
     after (with_rx (skipn n (rx d)) d) q [Read n (firstn n (rx d))] 0 s).
Proof.
  destruct s as [[] tr ck]. unfold listening. cbn.
  intros (-> & Hopen & ->) Hn.
  unfold read, bind, get_self. cbn. rewrite Hopen. cbn.
  apply Nat.leb_le in Hn. rewrite Hn. reflexivity.
Qed.

Lemma read_beyond (env : Env) (s : State) (d : Serial) (q : list Py.dict) (n : nat) :
  listening s d q ->
  length (rx d) < n ->
  read n env s
  = match at_end d with
    | ShortRead => (Returns (rx d), after (with_rx [] d) q [Read n (rx d)] 0 s)
    | Disconnect => (Raises Py.SerialException, s)
    | Silent => (Blocks, s)
    end.
Proof.
  destruct s as [[] tr ck]. unfold listening. cbn.
  intros (-> & Hopen & ->) Hn.
  unfold read, bind, get_self. cbn. rewrite Hopen. cbn.
  apply Nat.leb_gt in Hn. rewrite Hn.
  destruct (at_end d); reflexivity.
Qed.

Lemma put_nowait_listening (env : Env) (s : State) (d : Serial) (q : list Py.dict)
  (m : Py.dict) :
  listening s d q ->
  put_nowait m env s = (Returns tt, after d (q ++ [m]) [Put m] 0 s).
Proof.
  destruct s as [[] tr ck]. unfold listening. cbn.
  intros (-> & _ & ->). reflexivity.
Qed.

Lemma datetime_now_listening (env : Env) (s : State) (d : Serial) (q : list Py.dict) :
  listening s d q ->
  datetime_now env s = (Returns (now env (clock s)), after d q [] 1 s).
Proof.
  destruct s as [[] tr ck]. unfold listening. cbn.
  intros (-> & _ & ->). unfold datetime_now, after. cbn.
  rewrite app_nil_r. reflexivity.
Qed.

#[global] Arguments unpack_data_frame : simpl never.

Lemma bind_run {A B} (m : M A) (k : A -> M B) (env : Env) (s : State) :
  bind m k env s
  = match m env s with
    | (Returns a, s') => k a env s'
    | (Raises e, s') => (Raises e, s')
    | (Blocks, s') => (Blocks, s')
    | (Diverges, s') => (Diverges, s')
    end.
Proof. reflexivity. Qed.

(** Closes a starved case with the constructor [c] of [pass]. *)
Ltac starved_by c Hrx :=
  match goal with
  | |- pass ?env ?index ?s ?d ?q _ =>
      let P := fresh "P" in
      pose proof (c env index s d q) as P;
      rewrite Hrx in P; cbn in P; apply P; [unfold starved; eauto | assumption]
  end.

Lemma parseResponses_body_pass (env : Env) (index : Z) (s : State) (d : Serial)
  (q : list Py.dict) :
  listening s d q ->
  pass env index s d q (parseResponses_body index env s).
Proof.
  intros L. pose proof L as (Hdev & Hopen & Hq).
  unfold parseResponses_body.
  destruct (rx d) as [|b1 bs] eqn:Hrx.
  - (* nothing to read *)
    rewrite bind_run, (@read_beyond env s d q 1 L) by (rewrite Hrx; cbn; lia).
    destruct (at_end d) eqn:Eae.
    + rewrite Hrx, bind_run. cbn [ord raise].
      starved_by pass_short Hrx.
    + replace s with (after (with_rx [] d) q [] 0 s) at 2
        by (rewrite <- Hrx, with_rx_same; apply (after_here L)).
      starved_by pass_disconnect Hrx.
    + replace s with (after (with_rx [] d) q [] 0 s) at 2
        by (rewrite <- Hrx, with_rx_same; apply (after_here L)).
      starved_by pass_silent Hrx.
  - rewrite bind_run, (@read_enough env s d q 1 L) by (rewrite Hrx; cbn; lia).
    rewrite Hrx. cbn [firstn skipn]. rewrite bind_run. cbn [ord ret].
    destruct (Z.eqb_spec (byte_val b1) 170) as [E1|N1];
      [|unfold ret; apply pass_noise with (1 := Hrx); exact N1].
    apply (byte_val_inj b1 xaa) in E1. subst b1.
    assert (L1 : listening (after (with_rx bs d) q [Read 1 [xaa]] 0 s) (with_rx bs d) q)
      by (apply listening_after; exact Hopen).
    destruct bs as [|b2 bs].
    + (* the second sync byte never comes *)
      rewrite bind_run, (read_beyond env (n:=1) L1) by (cbn; lia).
      cbn [at_end with_rx rx].
      destruct (at_end d) eqn:Eae.
      * rewrite after_after, bind_run. cbn [ord raise app Nat.add].
        starved_by pass_short Hrx.
      * starved_by pass_disconnect Hrx.
      * starved_by pass_silent Hrx.
    + rewrite bind_run, (read_enough env (n:=1) L1) by (cbn; lia).
      cbn [with_rx rx firstn skipn]. rewrite after_after, bind_run.
      cbn [ord ret app Nat.add with_rx port baudrate is_open at_end].
      destruct (Z.eqb_spec (byte_val b2) 187) as [E2|N2];
        [|unfold ret; apply pass_false_start with (1 := Hrx); exact N2].
      apply (byte_val_inj b2 xbb) in E2. subst b2.
      rewrite with_rx_with_rx. clear L1.
      assert (L2 : listening
                (after (with_rx bs d) q [Read 1 [xaa]; Read 1 [xbb]] 0 s)
                (with_rx bs d) q)
        by (apply listening_after; exact Hopen).
      change (byte_val xaa) with 170%Z. change (byte_val xbb) with 187%Z.
      destruct (le_lt_dec 50 (length bs)) as [Hfull|Hshort].
      * (* a whole body *)
        rewrite bind_run, (read_enough env (n:=50) L2) by exact Hfull.
        cbn [with_rx rx]. rewrite after_after, with_rx_with_rx, bind_run.
        rewrite unpack_data_frame_full by (apply firstn_length_le; exact Hfull).
        cbn [lift ret app Nat.add].
        rewrite bind_run, (datetime_now_listening env (d:=with_rx (skipn 50 bs) d) (q:=q))
          by (apply listening_after; exact Hopen).
        rewrite after_after, bind_run.
        rewrite (put_nowait_listening env (d:=with_rx (skipn 50 bs) d) (q:=q))
          by (apply listening_after; exact Hopen).
        rewrite after_after. cbn [ret app Nat.add after clock].
        apply (@pass_frame env index s d q (firstn 50 bs) (skipn 50 bs)).
        -- rewrite firstn_skipn. exact Hrx.
        -- apply firstn_length_le. exact Hfull.
      * (* the body never comes whole *)
        rewrite bind_run, (read_beyond env (n:=50) L2) by exact Hshort.
        cbn [at_end with_rx rx].
        destruct (at_end d) eqn:Eae.
        -- rewrite after_after, with_rx_with_rx, bind_run.
           rewrite unpack_data_frame_short by exact Hshort.
           cbn [lift raise app Nat.add].
           starved_by pass_short Hrx.
        -- starved_by pass_disconnect Hrx.
        -- starved_by pass_silent Hrx.
Qed.

(** ** The loop *)

Lemma isSet_clear (env : Env) (s : State) (d : Serial) (q : list Py.dict) :
  listening s d q ->
  exitFlag (self s) = false ->
  set_by env (length (trace s)) = false ->
  isSet env s = (Returns false, after d q [Polled false] 0 s).
Proof.
  destruct s as [[] tr ck]. unfold listening, isSet, after. cbn.
  intros (-> & _ & ->) -> ->. reflexivity.
Qed.

Lemma isSet_raised (env : Env) (s : State) :
  exitFlag (self s) || set_by env (length (trace s)) = true ->
  isSet env s = (Returns true, stopped s).
Proof. intros H. unfold isSet, stopped. rewrite H. reflexivity. Qed.

Lemma set_by_never (env : Env) (n : nat) :
  shutdown_at env = None -> set_by env n = false.
Proof. intros H. unfold set_by. rewrite H. reflexivity. Qed.

Lemma loop_unroll (fuel : nat) (index : Z) :
  parseResponses_loop (S fuel) index
  = (stop <- isSet ;;
     if stop then ret tt
     else index' <- parseResponses_body index ;; parseResponses_loop fuel index').
Proof. reflexivity. Qed.

Lemma parseResponses_running (env : Env) (s : State) (lg : string) (d : Serial)
  (q : list Py.dict) :
  running s lg d q ->
  parseResponses env s
  = (parseResponses_loop (S (length (rx d))) 0 ;;
     log_record INFO "Exiting Thread logger" ;;
     ret tt) env (after d q [Logged lg INFO "Entering Thread logger"] 0 s).
Proof.
  destruct s as [[] tr ck]. unfold running, listening. cbn.
  intros (-> & Ht & -> & _ & ->).
  unfold parseResponses. rewrite bind_run.
  unfold log_record at 1. rewrite bind_run. cbn [get_self self log emit].
  rewrite bind_run. cbn [get_self self isOpen]. rewrite Ht.
  cbn [negb passes device]. reflexivity.
Qed.

(** The closing log line leaves the queue alone. *)
Lemma dataQueue_then_log {A} (m : M A) (lvl : level) (msg : string) (env : Env)
  (s : State) :
  dataQueue (self (snd ((m ;; log_record lvl msg ;; ret tt) env s)))
  = dataQueue (self (snd (m env s))).
Proof.
  rewrite bind_run. destruct (m env s) as [[a|e| |] s1]; try reflexivity.
  rewrite bind_run. unfold log_record. rewrite bind_run. cbn [get_self].
  destruct (log (self s1)); reflexivity.
Qed.

(** Fewer than 52 bytes hold no frame: whatever they are, and whenever the
    flag is set, the queue stays as it is. *)
Lemma loop_quiet (env : Env) (fuel : nat) :
  forall (index : Z) (s : State) (d : Serial) (q : list Py.dict),
    listening s d q ->
    length (rx d) < 52 ->
    dataQueue (self (snd (parseResponses_loop fuel index env s))) = Some q.
Proof.
  induction fuel as [|fuel IH]; intros index s d q L Hlen.
  - apply L.
  - rewrite loop_unroll, bind_run.
    destruct (exitFlag (self s) || set_by env (length (trace s))) eqn:Eflag.
    + rewrite (isSet_raised env s Eflag). apply L.
    + apply orb_false_elim in Eflag as [Ef Es].
      rewrite (isSet_clear env L Ef Es).
      assert (L1 : listening (after d q [Polled false] 0 s) d q)
        by (apply listening_after, L).
      rewrite bind_run.
      destruct (parseResponses_body_pass env index L1) as
        [b rest Hrx Hb|b rest Hrx Hb|body rest Hrx Hbody|Hst Hae|Hst Hae|Hst Hae];
        try reflexivity.
      * apply IH with (d := with_rx rest d).
        -- rewrite after_after. apply listening_after, L.
        -- rewrite Hrx in Hlen. cbn in *. lia.
      * apply IH with (d := with_rx rest d).
        -- rewrite after_after. apply listening_after, L.
        -- rewrite Hrx in Hlen. cbn in *. lia.
      * rewrite Hrx in Hlen. cbn in Hlen. rewrite length_app in Hlen. lia.
Qed.

Lemma app_same_length {A} (a a' b b' : list A) :
  length a = length a' -> a ++ b = a' ++ b' -> a = a' /\ b = b'.
Proof.
  revert a'. induction a as [|x a IH]; intros [|x' a'] Hlen Happ;
    try discriminate Hlen.
  - split; [reflexivity | exact Happ].
  - injection Happ as -> Happ. injection Hlen as Hlen.
    destruct (IH a' Hlen Happ) as [-> ->]. split; reflexivity.
Qed.

(** The three passes that go through, as equations. *)

Lemma starved_short (bs : list byte) : starved bs -> length bs < 52.
Proof.
  intros [->|[->|(rest & -> & H)]]; cbn; lia.
Qed.

Lemma body_noise (env : Env) (index : Z) (s : State) (d : Serial) (q : list Py.dict)
  (b : byte) (rest : list byte) :
  listening s d q ->
  rx d = b :: rest ->
  byte_val b <> 0xAA%Z ->
  parseResponses_body index env s
  = (Returns index, after (with_rx rest d) q [Read 1 [b]] 0 s).
Proof.
  intros L Hrx Hb.
  destruct (parseResponses_body_pass env index L) as
    [b' rest' Hrx' Hb'|b' rest' Hrx' Hb'|body rest' Hrx' Hbody|Hst Hae|Hst Hae|Hst Hae];
    rewrite Hrx in *.
  - injection Hrx' as <- <-. reflexivity.
  - injection Hrx' as -> _. exfalso. apply Hb. reflexivity.
  - injection Hrx' as -> _. exfalso. apply Hb. reflexivity.
  - destruct Hst as [H|[H|(r & H & _)]]; try discriminate H;
      injection H as -> _; exfalso; apply Hb; reflexivity.
  - destruct Hst as [H|[H|(r & H & _)]]; try discriminate H;
      injection H as -> _; exfalso; apply Hb; reflexivity.
  - destruct Hst as [H|[H|(r & H & _)]]; try discriminate H;
      injection H as -> _; exfalso; apply Hb; reflexivity.
Qed.

Lemma body_false_start (env : Env) (index : Z) (s : State) (d : Serial)
  (q : list Py.dict) (b : byte) (rest : list byte) :
  listening s d q ->
  rx d = xaa :: b :: rest ->
  byte_val b <> 0xBB%Z ->
  parseResponses_body index env s
  = (Returns index, after (with_rx rest d) q [Read 1 [xaa]; Read 1 [b]] 0 s).
Proof.
  intros L Hrx Hb.
  destruct (parseResponses_body_pass env index L) as
    [b' rest' Hrx' Hb'|b' rest' Hrx' Hb'|body rest' Hrx' Hbody|Hst Hae|Hst Hae|Hst Hae];
    rewrite Hrx in *.
  - injection Hrx' as <- _. exfalso. apply Hb'. reflexivity.
  - injection Hrx' as <- <-. reflexivity.
  - injection Hrx' as -> _. exfalso. apply Hb. reflexivity.
  - destruct Hst as [H|[H|(r & H & _)]]; try discriminate H.
    injection H as -> _. exfalso. apply Hb. reflexivity.
  - destruct Hst as [H|[H|(r & H & _)]]; try discriminate H.
    injection H as -> _. exfalso. apply Hb. reflexivity.
  - destruct Hst as [H|[H|(r & H & _)]]; try discriminate H.
    injection H as -> _. exfalso. apply Hb. reflexivity.
Qed.

Lemma body_frame (env : Env) (index : Z) (s : State) (d : Serial) (q : list Py.dict)
  (body rest : list byte) :
  listening s d q ->
  rx d = xaa :: xbb :: body ++ rest ->
  length body = 50 ->
  parseResponses_body index env s
  = (Returns (index + 1)%Z,
     after (with_rx rest d)
       (q ++ [wire_message (now env (clock s)) index body])
       [Read 1 [xaa]; Read 1 [xbb]; Read 50 body;
        Put (wire_message (now env (clock s)) index body)] 1 s).
Proof.
  intros L Hrx Hbody.
  assert (Hlen : 52 <= length (rx d))
    by (rewrite Hrx; cbn; rewrite length_app; lia).
  destruct (parseResponses_body_pass env index L) as
    [b' rest' Hrx' Hb'|b' rest' Hrx' Hb'|body' rest' Hrx' Hbody'|Hst Hae|Hst Hae|Hst Hae];
    try (apply starved_short in Hst; lia);
    rewrite Hrx in *.
  - injection Hrx' as <- _. exfalso. apply Hb'. reflexivity.
  - injection Hrx' as <- _. exfalso. apply Hb'. reflexivity.
  - injection Hrx' as Happ.
    apply app_same_length in Happ as [-> ->]; [reflexivity | congruence].
Qed.

(** ** Runs of whole frames *)

Lemma messages_length (env : Env) (bodies : list (list byte)) :
  forall k index, length (messages env k index bodies) = length bodies.
Proof.
  induction bodies as [|body bodies IH]; intros k index; cbn; [|rewrite IH];
    reflexivity.
Qed.

Lemma messages_nth (env : Env) (bodies : list (list byte)) :
  forall k index n,
    n < length bodies ->
    nth n (messages env k index bodies) []
    = wire_message (now env (k + n)) (index + Z.of_nat n) (nth n bodies []).
Proof.
  induction bodies as [|body bodies IH]; intros k index n Hn; cbn in Hn; [lia|].
  destruct n as [|n]; cbn [messages nth].
  - rewrite Nat.add_0_r, Z.add_0_r. reflexivity.
  - rewrite IH by lia. f_equal; [f_equal|]; lia.
Qed.

Lemma frames_stream_length (bodies : list (list byte)) :
  Forall (fun body => length body = 50) bodies ->
  length (frames_stream bodies) = 52 * length bodies.
Proof.
  induction 1 as [|body bodies Hbody _ IH]; [reflexivity|].
  cbn [frames_stream length]. rewrite length_app, IH, Hbody. lia.
Qed.

Lemma loop_frames (env : Env) (bodies : list (list byte)) :
  forall (fuel : nat) (index : Z) (s : State) (d : Serial) (q : list Py.dict)
         (tail : list byte),
    Forall (fun body => length body = 50) bodies ->
    listening s d q ->
    exitFlag (self s) = false ->
    shutdown_at env = None ->
    rx d = frames_stream bodies ++ tail ->
    exists evs,
      parseResponses_loop (length bodies + fuel) index env s
      = parseResponses_loop fuel (index + Z.of_nat (length bodies)) env
          (after (with_rx tail d) (q ++ messages env (clock s) index bodies)
             evs (length bodies) s).
Proof.
  induction bodies as [|body bodies IH]; intros fuel index s d q tail Hall L Hflag Hnever Hrx.
  - exists []. cbn [length Nat.add messages Z.of_nat frames_stream app] in *.
    rewrite Z.add_0_r, app_nil_r, <- Hrx, with_rx_same, (after_here L). reflexivity.
  - inversion Hall as [|? ? Hbody Hall']; subst.
    cbn [length Nat.add frames_stream messages] in *.
    rewrite loop_unroll, bind_run.
    rewrite (isSet_clear env L Hflag (set_by_never env _ Hnever)).
    assert (L1 : listening (after d q [Polled false] 0 s) d q)
      by (apply listening_after, L).
    rewrite bind_run.
    cbn [app] in Hrx. rewrite <- app_assoc in Hrx.
    rewrite (@body_frame env index _ _ _ body _ L1 Hrx Hbody), after_after.
    cbn [clock after Nat.add app].
    match goal with
    | |- context [parseResponses_loop _ _ env (after ?d1 ?q1 ?evs1 ?k1 s)] =>
        destruct (IH fuel (index + 1)%Z (after d1 q1 evs1 k1 s) d1 q1 tail)
          as [evs Hevs];
          [exact Hall' | apply listening_after, L | exact Hflag | exact Hnever
          | reflexivity | ]
    end.
    rewrite Hevs, after_after, with_rx_with_rx.
    cbn [clock after Nat.add]. rewrite <- app_assoc. cbn [app].
    eexists. f_equal; [lia|]. f_equal. lia.
Qed.

Lemma loop_noise (env : Env) (noise : list byte) :
  forall (fuel : nat) (index : Z) (s : State) (d : Serial) (q : list Py.dict)
         (rest : list byte),
    Forall (fun b => byte_val b <> 0xAA%Z) noise ->
    listening s d q ->
    exitFlag (self s) = false ->
    shutdown_at env = None ->
    rx d = noise ++ rest ->
    parseResponses_loop (length noise + fuel) index env s
    = parseResponses_loop fuel index env
        (after (with_rx rest d) q
           (flat_map (fun b => [Polled false; Read 1 [b]]) noise) 0 s).
Proof.
  induction noise as [|b noise IH]; intros fuel index s d q rest Hall L Hflag Hnever Hrx.
  - cbn [length Nat.add flat_map app] in *.
    rewrite <- Hrx, with_rx_same, (after_here L). reflexivity.
  - inversion Hall as [|? ? Hb Hall']; subst.
    cbn [length Nat.add flat_map app] in *.
    rewrite loop_unroll, bind_run.
    rewrite (isSet_clear env L Hflag (set_by_never env _ Hnever)).
    assert (L1 : listening (after d q [Polled false] 0 s) d q)
      by (apply listening_after, L).
    rewrite bind_run, (@body_noise env index _ _ _ b _ L1 Hrx Hb), after_after.
    cbn [app Nat.add].
    rewrite (IH fuel index _ (with_rx (noise ++ rest) d) q rest Hall');
      [ | apply listening_after, L | exact Hflag | exact Hnever | reflexivity ].
    rewrite after_after, with_rx_with_rx. reflexivity.
Qed.

(** ** What a run looks like from outside *)

Lemma count_app (f : event -> bool) (a b : list event) :
  count f (a ++ b) = count f a + count f b.
Proof. unfold count. rewrite filter_app, length_app. reflexivity. Qed.

Lemma count_skipn (f : event -> bool) (k : nat) (evs : list event) :
  count f (skipn k evs) <= count f evs.
Proof.
  rewrite <- (firstn_skipn k evs) at 2. rewrite count_app. lia.
Qed.

Lemma count_zero_not_in (f : event -> bool) (evs : list event) (e : event) :
  count f evs = 0 -> f e = true -> ~ In e evs.
Proof.
  unfold count. intros H He Hin.
  assert (Hf : In e (filter f evs)) by (apply filter_In; auto).
  destruct (filter f evs); [exact Hf | discriminate H].
Qed.

Lemma pass_summary (env : Env) (index : Z) (s : State) (d : Serial)
  (q : list Py.dict) (r : outcome Z) (s' : State) :
  pass env index s d q (r, s') ->
  exists d' q' evs k,
    s' = after d' q' evs k s /\
    is_open d' = is_open d /\
    quiet evs /\
    match r with
    | Returns _ => length (rx d') < length (rx d)
    | Raises _ | Blocks => True
    | Diverges => False
    end.
Proof.
  unfold quiet, count.
  inversion 1 as
    [b rest Hrx Hb|b rest Hrx Hb|body rest Hrx Hbody|Hst Hae|Hst Hae|Hst Hae];
    subst; do 4 eexists; (split; [reflexivity|]); (split; [reflexivity|]).
  - rewrite Hrx. cbn. lia.
  - rewrite Hrx. cbn. lia.
  - rewrite Hrx. cbn. rewrite length_app. lia.
  - destruct Hst as [->|[->|(rest & -> & _)]]; cbn; lia.
  - destruct Hst as [->|[->|(rest & -> & _)]]; cbn; lia.
  - destruct Hst as [->|[->|(rest & -> & _)]]; cbn; lia.
Qed.

Lemma quiet_cancelled (evs : list event) (k : nat) :
  quiet evs -> cancelled (skipn k evs).
Proof.
  intros (Hpoll & Hread & Hput). repeat split.
  - pose proof (count_skipn is_put k evs). lia.
  - pose proof (count_skipn is_read k evs). lia.
  - apply count_zero_not_in with (f := is_poll); [|reflexivity].
    pose proof (count_skipn is_poll k evs). lia.
Qed.

Lemma cancelled_exit : cancelled [Polled true].
Proof.
  unfold cancelled, count. cbn. repeat split; try lia.
  intros [H|[]]. discriminate H.
Qed.

Lemma cancelled_nil : cancelled [].
Proof. unfold cancelled, count. cbn. repeat split; try lia. Qed.

Lemma cancelled_then_exit (evs : list event) :
  cancelled evs -> cancelled (evs ++ [Polled true]).
Proof.
  intros (Hput & Hread & Hpoll). unfold cancelled. rewrite !count_app.
  unfold count at 2 4. cbn. repeat split; try lia.
  intros Hin. apply in_app_or in Hin as [Hin|[Hin|[]]];
    [exact (Hpoll Hin) | discriminate Hin].
Qed.

Lemma late_first_pass (env : Env) (n0 : nat) (evs : list event) :
  set_by env n0 = false ->
  quiet evs ->
  cancelled (late env n0 (Polled false :: evs)).
Proof.
  intros Hset Hq. unfold late, set_by in *.
  destruct (shutdown_at env) as [t|]; [|apply cancelled_nil].
  apply Nat.leb_gt in Hset.
  replace (t - n0) with (S (t - n0 - 1)) by lia. cbn [skipn].
  apply quiet_cancelled, Hq.
Qed.

Lemma loop_stops (env : Env) (fuel : nat) (index : Z) (s : State) :
  exitFlag (self s) || set_by env (length (trace s)) = true ->
  parseResponses_loop (S fuel) index env s = (Returns tt, stopped s).
Proof.
  intros H. rewrite loop_unroll, bind_run, (isSet_raised env s H). reflexivity.
Qed.

Lemma loop_run (env : Env) (fuel : nat) :
  forall (index : Z) (s : State) (d : Serial) (q : list Py.dict),
    listening s d q ->
    exitFlag (self s) = false ->
    length (rx d) < fuel ->
    exists evs,
      trace (snd (parseResponses_loop fuel index env s)) = trace s ++ evs /\
      fst (parseResponses_loop fuel index env s) <> Diverges /\
      run_trace evs /\
      cancelled (late env (length (trace s)) evs).
Proof.
  induction fuel as [|fuel IH]; intros index s d q L Hflag Hfuel; [lia|].
  destruct (set_by env (length (trace s))) eqn:Eset.
  - rewrite loop_stops by (rewrite Eset; apply orb_true_r).
    exists [Polled true]. cbn [fst snd stopped trace].
    split; [reflexivity|]. split; [discriminate|]. split; [constructor|].
    unfold late, set_by in *. destruct (shutdown_at env) as [t|]; [|discriminate].
    apply Nat.leb_le in Eset. replace (t - length (trace s)) with 0 by lia.
    apply cancelled_exit.
  - rewrite loop_unroll, bind_run, (isSet_clear env L Hflag Eset).
    assert (L1 : listening (after d q [Polled false] 0 s) d q)
      by (apply listening_after, L).
    rewrite bind_run.
    pose proof (parseResponses_body_pass env index L1) as P.
    destruct (parseResponses_body index env (after d q [Polled false] 0 s))
      as [r s2].
    destruct (pass_summary P) as (d' & q' & evs_b & k & -> & Hopen' & Hq & Hr).
    rewrite after_after in *. cbn [app] in *.
    destruct r as [index'|e| |]; cbn [fst snd after trace];
      try (exists (Polled false :: evs_b);
           split; [reflexivity|]; split; [discriminate|];
           split; [apply run_abort, Hq | apply late_first_pass; assumption]);
      [|contradiction].
    set (s2 := after d' q' (Polled false :: evs_b) (k + 0) s).
    assert (L2 : listening s2 d' q')
      by (apply listening_after; rewrite Hopen'; apply L).
    assert (Hlt : length (rx d') < fuel) by lia.
    destruct (IH index' s2 d' q' L2 Hflag Hlt) as (evs' & Htr & Hnd & Hrun & Hc).
    exists (Polled false :: evs_b ++ evs').
    split; [rewrite Htr; subst s2; cbn [trace after]; rewrite <- app_assoc; reflexivity|].
    split; [exact Hnd|].
    split; [apply run_pass; assumption|].
    unfold late in *. destruct (shutdown_at env) as [t|] eqn:Esh; [|apply cancelled_nil].
    assert (Hbefore : length (trace s) < t)
      by (unfold set_by in Eset; rewrite Esh in Eset; apply Nat.leb_gt, Eset).
    assert (Hlen2 : length (trace s2) = length (trace s) + S (length evs_b))
      by (subst s2; cbn [trace after]; rewrite length_app; reflexivity).
    rewrite Hlen2 in Hc.
    change (Polled false :: evs_b ++ evs') with ((Polled false :: evs_b) ++ evs').
    rewrite skipn_app. cbn [length].
    destruct (le_lt_dec (length (trace s) + S (length evs_b)) t) as [Hnot|Hset].
    + (* the flag is still clear when the pass ends *)
      rewrite skipn_all2 by (cbn [length]; lia). cbn [app].
      replace (t - length (trace s) - S (length evs_b))
        with (t - (length (trace s) + S (length evs_b))) by lia.
      exact Hc.
    + (* the flag is set during the pass: the next poll ends the loop *)
      destruct fuel as [|fuel']; [lia|].
      rewrite loop_stops in Htr
        by (apply orb_true_iff; right; unfold set_by; rewrite Esh;
            apply Nat.leb_le; lia).
      cbn [snd stopped trace] in Htr. apply app_inv_head in Htr. subst evs'.
      replace (t - length (trace s)) with (S (t - length (trace s) - 1)) by lia.
      cbn [skipn].
      replace (S (t - length (trace s) - 1) - S (length evs_b)) with 0 by lia.
      cbn [skipn]. apply cancelled_then_exit, quiet_cancelled, Hq.
Qed.

(** ** The whole method *)

Lemma then_log_ends {A} (m : M A) (lvl : level) (msg : string) (env : Env)
  (s : State) :
  fst (m env s) <> Diverges ->
  fst ((m ;; log_record lvl msg ;; ret tt) env s) <> Diverges.
Proof.
  rewrite bind_run. destruct (m env s) as [[a|e| |] s1]; cbn [fst]; intros H;
    try discriminate; try (exfalso; apply H; reflexivity).
  rewrite bind_run. unfold log_record. rewrite bind_run. cbn [get_self].
  destruct (log (self s1)); discriminate.
Qed.

Lemma then_log_trace {A} (m : M A) (lvl : level) (msg : string) (env : Env)
  (s : State) :
  exists closing,
    trace (snd ((m ;; log_record lvl msg ;; ret tt) env s))
    = trace (snd (m env s)) ++ closing /\
    count is_put closing = 0 /\ count is_read closing = 0 /\
    count is_poll closing = 0.
Proof.
  rewrite bind_run. destruct (m env s) as [[a|e| |] s1]; cbn [snd];
    try (exists []; rewrite app_nil_r; repeat split; reflexivity).
  rewrite bind_run. unfold log_record. rewrite bind_run. cbn [get_self].
  destruct (log (self s1)) as [lg|].
  - exists [Logged lg lvl msg]. repeat split; reflexivity.
  - exists []. rewrite app_nil_r. repeat split; reflexivity.
Qed.

(** The fuel [passes] gives is enough: a running decoder returns, raises or
    blocks. *)
Lemma parseResponses_ends (env : Env) (s : State) (lg : string) (d : Serial)
  (q : list Py.dict) :
  running s lg d q -> fst (parseResponses env s) <> Diverges.
Proof.
  intros R. rewrite (parseResponses_running env R).
  destruct R as (_ & _ & L). apply then_log_ends.
  destruct (exitFlag (self s)) eqn:Hflag.
  - rewrite loop_stops by (cbn; rewrite Hflag; reflexivity). discriminate.
  - destruct (@loop_run env (S (length (rx d))) 0%Z
                (after d q [Logged lg INFO "Entering Thread logger"] 0 s) d q)
      as (evs & _ & H & _); [apply listening_after, L | exact Hflag | lia | exact H].
Qed.

(** The queue after a run over whole frames followed by less than a frame. *)
Lemma loop_frames_queue (env : Env) (fuel : nat) (index : Z) (s : State)
  (d : Serial) (q : list Py.dict) (bodies : list (list byte)) (tail : list byte) :
  listening s d q ->
  exitFlag (self s) = false ->
  shutdown_at env = None ->
  Forall (fun body => length body = 50) bodies ->
  rx d = frames_stream bodies ++ tail ->
  length tail < 52 ->
  length bodies <= fuel ->
  dataQueue (self (snd (parseResponses_loop fuel index env s)))
  = Some (q ++ messages env (clock s) index bodies).
Proof.
  intros L Hflag Hnever Hall Hrx Htail Hfuel.
  replace fuel with (length bodies + (fuel - length bodies)) by lia.
  destruct (@loop_frames env bodies (fuel - length bodies) index s d q tail)
    as (evs & ->); try assumption.
  apply loop_quiet with (d := with_rx tail d); [apply listening_after, L | exact Htail].
Qed.

Lemma parseResponses_frames (env : Env) (s : State) (lg : string) (d : Serial)
  (q : list Py.dict) (bodies : list (list byte)) (tail : list byte) :
  running s lg d q ->
  exitFlag (self s) = false ->
  shutdown_at env = None ->
  Forall (fun body => length body = 50) bodies ->
  rx d = frames_stream bodies ++ tail ->
  length tail < 52 ->
  dataQueue (self (snd (parseResponses env s)))
  = Some (q ++ messages env (clock s) 0 bodies).
Proof.
  intros R Hflag Hnever Hall Hrx Htail.
  rewrite (parseResponses_running env R), dataQueue_then_log.
  destruct R as (_ & _ & L).
  apply (@loop_frames_queue env _ 0%Z
           (after d q [Logged lg INFO "Entering Thread logger"] 0 s) d q bodies tail);
    try assumption.
  - apply listening_after, L.
  - rewrite Hrx, length_app, frames_stream_length by exact Hall. lia.
Qed.

Lemma wire_message_payload (time : string) (index : Z) (payload : list byte)
  (crc : byte) :
  length payload = 49 ->
  wire_message time index (payload ++ [crc])
  = [("Time", Py.Str time); ("Index", Py.Int index);
     ("syncAA", Py.Int 0xAA); ("syncBB", Py.Int 0xBB);
     ("ID", u8_at payload 0);
     ("Acc", vec3_at payload 1);
     ("Gyro", vec3_at payload 13);
     ("Mag", vec3_at payload 25);
     ("euler", vec3_at payload 37);
     ("crc8maxim", Py.Int (byte_val crc))]%string.
Proof.
  intros H.
  do 49 (destruct payload as [|? payload]; [discriminate H|]).
  destruct payload; [reflexivity | discriminate H].
Qed.

Lemma log_record_some (env : Env) (lvl : level) (msg : string) (s : State)
  (lg : string) :
  log (self s) = Some lg ->
  log_record lvl msg env s
  = (Returns tt,
     {| self := self s; trace := trace s ++ [Logged lg lvl msg]; clock := clock s |}).
Proof.
  intros H. unfold log_record. rewrite bind_run. cbn [get_self]. rewrite H.
  reflexivity.
Qed.

Lemma log_record_none (env : Env) (lvl : level) (msg : string) (s : State) :
  log (self s) = None ->
  log_record lvl msg env s = (Raises Py.AttributeError, s).
Proof.
  intros H. unfold log_record. rewrite bind_run. cbn [get_self]. rewrite H.
  reflexivity.
Qed.



(** ** A port that runs dry *)

Lemma pass_failure (env : Env) (index : Z) (s : State) (d : Serial)
  (q : list Py.dict) (r : outcome Z) (s' : State) :
  pass env index s d q (r, s') ->
  exists d' q' evs k,
    s' = after d' q' evs k s /\
    is_open d' = is_open d /\
    at_end d' = at_end d /\
    match r with
    | Returns _ => length (rx d') < length (rx d)
    | Raises x => io_failure (at_end d) x
    | Blocks => at_end d = Silent
    | Diverges => False
    end.
Proof.
  inversion 1 as
    [b rest Hrx Hb|b rest Hrx Hb|body rest Hrx Hbody|Hst Hae|Hst Hae|Hst Hae];
    subst; do 4 eexists; (split; [reflexivity|]); (split; [reflexivity|]);
    (split; [reflexivity|]).
  - rewrite Hrx. cbn. lia.
  - rewrite Hrx. cbn. lia.
  - rewrite Hrx. cbn. rewrite length_app. lia.
  - rewrite Hae. destruct Hst as [->|[->|(rest & -> & _)]]; cbn; auto.
  - rewrite Hae. reflexivity.
  - exact Hae.
Qed.

Lemma loop_exhausts (env : Env) (fuel : nat) :
  shutdown_at env = None ->
  forall (index : Z) (s : State) (d : Serial) (q : list Py.dict),
    listening s d q ->
    exitFlag (self s) = false ->
    at_end d <> Silent ->
    length (rx d) < fuel ->
    exists x d' q' evs k,
      parseResponses_loop fuel index env s = (Raises x, after d' q' evs k s) /\
      io_failure (at_end d) x.
Proof.
  intros Hnever.
  induction fuel as [|fuel IH]; intros index s d q L Hflag Hend Hfuel; [lia|].
  rewrite loop_unroll, bind_run.
  rewrite (isSet_clear env L Hflag (set_by_never env _ Hnever)).
  assert (L1 : listening (after d q [Polled false] 0 s) d q)
    by (apply listening_after, L).
  rewrite bind_run.
  pose proof (parseResponses_body_pass env index L1) as P.
  destruct (parseResponses_body index env (after d q [Polled false] 0 s))
    as [r s2].
  destruct (pass_failure P) as (d' & q' & evs_b & k & -> & Hopen' & Hend' & Hr).
  rewrite after_after.
  destruct r as [index'|x| |].
  - destruct (IH index' (after d' q' ([Polled false] ++ evs_b) (k + 0) s) d' q')
      as (x & d2 & q2 & evs2 & k2 & -> & Hx).
    + apply listening_after. rewrite Hopen'. apply L.
    + exact Hflag.
    + rewrite Hend'. exact Hend.
    + lia.
    + rewrite after_after. rewrite Hend' in Hx. eauto 10.
  - eauto 10.
  - contradiction.
  - contradiction.
Qed.

(** * The claims *)

(** C1. Round-trip decode: fed [0xAA, 0xBB], any 49 payload bytes and any
    checksum byte, the decoder puts exactly one message on the queue. Its
    [ID] is the byte at offset 0 of the payload, [Acc], [Gyro], [Mag] and
    [euler] are the three little-endian binary32 numbers at offsets 1, 13, 25
    and 37, [crc8maxim] is the appended byte, and [Index] is 0. *)
Theorem round_trip_decode (env : Env) (s : State) (lg : string) (d : Serial)
  (q : list Py.dict) (payload : list byte) (crc : byte) :
  running s lg d q ->
  exitFlag (self s) = false ->
  shutdown_at env = None ->
  length payload = 49 ->
  rx d = [xaa; xbb] ++ payload ++ [crc] ->
  fst (parseResponses env s) <> Diverges /\
  dataQueue (self (snd (parseResponses env s)))
  = Some (q ++ [[("Time", Py.Str (now env (clock s)));
                 ("Index", Py.Int 0);
                 ("syncAA", Py.Int 0xAA);
                 ("syncBB", Py.Int 0xBB);
                 ("ID", u8_at payload 0);
                 ("Acc", vec3_at payload 1);
                 ("Gyro", vec3_at payload 13);
                 ("Mag", vec3_at payload 25);
                 ("euler", vec3_at payload 37);
                 ("crc8maxim", Py.Int (byte_val crc))]%string]).
Proof.
  intros R Hflag Hnever Hlen Hrx.
  split; [exact (parseResponses_ends env R)|].
  rewrite (@parseResponses_frames env s lg d q [payload ++ [crc]] [] R Hflag Hnever).
  - cbn [messages]. rewrite wire_message_payload by exact Hlen. reflexivity.
  - constructor; [rewrite length_app, Hlen; reflexivity | constructor].
  - rewrite Hrx. cbn. rewrite !app_nil_r. reflexivity.
  - cbn. lia.
Qed.

Lemma round_trip_decode_witness :
  let bs := [xaa; xbb] ++ sample_payload ++ [xab] in
  let env := sample_env bs ShortRead None in
  let s := sample_state bs ShortRead in
  byte_val xab = crc8_value sample_payload /\
  fst (parseResponses env s) <> Diverges /\
  dataQueue (self (snd (parseResponses env s)))
  = Some ([] ++ [[("Time", Py.Str "2016-12-22 10:00:00.000");
                  ("Index", Py.Int 0);
                  ("syncAA", Py.Int 0xAA);
                  ("syncBB", Py.Int 0xBB);
                  ("ID", u8_at sample_payload 0);
                  ("Acc", vec3_at sample_payload 1);
                  ("Gyro", vec3_at sample_payload 13);
                  ("Mag", vec3_at sample_payload 25);
                  ("euler", vec3_at sample_payload 37);
                  ("crc8maxim", Py.Int (byte_val xab))]%string]).
Proof.
  intros bs env s. split; [reflexivity|].
  apply (@round_trip_decode env s "RazorIMU 1" (sample_port bs ShortRead) []
           sample_payload xab).
  - repeat split; reflexivity.
  - reflexivity.
  - reflexivity.
  - reflexivity.
  - reflexivity.
Defined.

(** C2. SeekSyncB drop policy: after a 0xAA, a byte other than 0xBB is read
    and dropped, and the next pass starts behind it, whatever that byte was;
    so the stream [0xAA, 0xAA, 0xBB], payload, checksum leaves the queue as
    it was: the frame that starts at the second 0xAA is never decoded. *)
Theorem seek_sync_b_drops (env : Env) :
  (forall (index : Z) (s : State) (d : Serial) (q : list Py.dict) (b : byte)
          (rest : list byte),
      listening s d q ->
      rx d = xaa :: b :: rest ->
      byte_val b <> 0xBB%Z ->
      parseResponses_body index env s
      = (Returns index,
         after (with_rx rest d) q [Read 1 [xaa]; Read 1 [b]] 0 s)) /\
  (forall (s : State) (lg : string) (d : Serial) (q : list Py.dict)
          (payload : list byte) (crc : byte),
      running s lg d q ->
      length payload = 49 ->
      rx d = [xaa; xaa; xbb] ++ payload ++ [crc] ->
      fst (parseResponses env s) <> Diverges /\
      dataQueue (self (snd (parseResponses env s))) = Some q).
Proof.
  split.
  - intros index s d q b rest L Hrx Hb.
    exact (@body_false_start env index s d q b rest L Hrx Hb).
  - intros s lg d q payload crc R Hlen Hrx.
    split; [exact (parseResponses_ends env R)|].
    rewrite (parseResponses_running env R), dataQueue_then_log.
    destruct R as (_ & _ & L).
    set (s0 := after d q [Logged lg INFO "Entering Thread logger"] 0 s).
    assert (L0 : listening s0 d q) by (apply listening_after, L).
    rewrite loop_unroll, bind_run.
    destruct (exitFlag (self s0) || set_by env (length (trace s0))) eqn:Eflag.
    + rewrite (isSet_raised env s0 Eflag). reflexivity.
    + apply orb_false_elim in Eflag as [Ef Es].
      rewrite (isSet_clear env L0 Ef Es), bind_run.
      rewrite (@body_false_start env 0%Z _ d q xaa (xbb :: payload ++ [crc]));
        [ | apply listening_after, L | exact Hrx | discriminate ].
      rewrite after_after.
      apply loop_quiet with (d := with_rx (xbb :: payload ++ [crc]) d).
      * apply listening_after, L.
      * cbn. rewrite length_app, Hlen. cbn. lia.
Qed.

Lemma seek_sync_b_drops_witness :
  let bs := [xaa; xaa; xbb] ++ sample_payload ++ [xab] in
  let env := sample_env bs ShortRead None in
  let s := sample_state bs ShortRead in
  parseResponses_body 0 env s
  = (Returns 0%Z,
     after (with_rx (xbb :: sample_payload ++ [xab]) (sample_port bs ShortRead)) []
       [Read 1 [xaa]; Read 1 [xaa]] 0 s) /\
  fst (parseResponses env s) <> Diverges /\
  dataQueue (self (snd (parseResponses env s))) = Some [].
Proof.
  intros bs env s. split.
  - apply (proj1 (seek_sync_b_drops env) 0%Z s (sample_port bs ShortRead) [] xaa
             (xbb :: sample_payload ++ [xab])).
    + repeat split; reflexivity.
    + reflexivity.
    + discriminate.
  - apply (proj2 (seek_sync_b_drops env) s "RazorIMU 1"%string
             (sample_port bs ShortRead) [] sample_payload xab).
    + repeat split; reflexivity.
    + reflexivity.
    + reflexivity.
Defined.

(** C3. Resynchronization after noise: bytes other than 0xAA ahead of a frame
    are read and dropped one per pass, and the frame behind them is decoded
    into exactly the message that the same frame gives without them. *)
Theorem resync_after_noise (env : Env) (s : State) (lg : string) (d : Serial)
  (q : list Py.dict) (noise payload : list byte) (crc : byte) :
  running s lg d q ->
  exitFlag (self s) = false ->
  shutdown_at env = None ->
  Forall (fun b => byte_val b <> 0xAA%Z) noise ->
  length payload = 49 ->
  rx d = noise ++ [xaa; xbb] ++ payload ++ [crc] ->
  let clean := after (with_rx ([xaa; xbb] ++ payload ++ [crc]) d) q [] 0 s in
  dataQueue (self (snd (parseResponses env s)))
  = Some (q ++ [wire_message (now env (clock s)) 0 (payload ++ [crc])]) /\
  dataQueue (self (snd (parseResponses env s)))
  = dataQueue (self (snd (parseResponses env clean))) /\
  fst (parseResponses env s) <> Diverges /\
  exists evs,
    trace (snd (parseResponses env s))
    = trace s ++ Logged lg INFO "Entering Thread logger"
        :: flat_map (fun b => [Polled false; Read 1 [b]]) noise ++ evs.
Proof.
  intros R Hflag Hnever Hnoise Hlen Hrx clean.
  assert (Hall : Forall (fun body : list byte => length body = 50) [payload ++ [crc]])
    by (constructor; [rewrite length_app, Hlen; reflexivity | constructor]).
  assert (Hclean : running clean lg (with_rx ([xaa; xbb] ++ payload ++ [crc]) d) q)
    by (destruct R as (Hlog & Hopen & _ & Hport & _);
        repeat split; [exact Hlog | exact Hopen | exact Hport]).
  assert (Hq : dataQueue (self (snd (parseResponses env s)))
               = Some (q ++ [wire_message (now env (clock s)) 0 (payload ++ [crc])])).
  { rewrite (parseResponses_running env R), dataQueue_then_log.
    destruct R as (_ & _ & L).
    replace (S (length (rx d))) with (length noise + S (length (rx d) - length noise))
      by (rewrite Hrx, length_app; lia).
    rewrite (@loop_noise env noise _ 0%Z _ d q ([xaa; xbb] ++ payload ++ [crc]) Hnoise);
      [ | apply listening_after, L | exact Hflag | exact Hnever | exact Hrx ].
    rewrite after_after.
    match goal with
    | |- context [parseResponses_loop ?f ?i env (after ?d1 ?q1 ?e1 ?k1 s)] =>
        rewrite (@loop_frames_queue env f i (after d1 q1 e1 k1 s) d1 q1
                   [payload ++ [crc]] []);
          [reflexivity | apply listening_after, L | exact Hflag | exact Hnever
          | exact Hall | cbn; rewrite !app_nil_r; reflexivity | cbn; lia | cbn; lia]
    end. }
  split; [exact Hq|].
  split.
  { rewrite Hq.
    rewrite (@parseResponses_frames env clean lg _ q [payload ++ [crc]] [] Hclean
               Hflag Hnever Hall); [reflexivity | | cbn; lia].
    cbn. rewrite !app_nil_r. reflexivity. }
  split; [exact (parseResponses_ends env R)|].
  rewrite (parseResponses_running env R).
  destruct (then_log_trace
              (parseResponses_loop (S (length (rx d))) 0) INFO
              "Exiting Thread logger" env
              (after d q [Logged lg INFO "Entering Thread logger"] 0 s))
    as (closing & -> & _).
  destruct R as (_ & _ & L).
  replace (S (length (rx d))) with (length noise + S (length (rx d) - length noise))
    by (rewrite Hrx, length_app; lia).
  rewrite (@loop_noise env noise _ 0%Z _ d q ([xaa; xbb] ++ payload ++ [crc]) Hnoise);
    [ | apply listening_after, L | exact Hflag | exact Hnever | exact Hrx ].
  rewrite after_after.
  match goal with
  | |- context [parseResponses_loop ?f ?i env (after ?d1 ?q1 ?e1 ?k1 s)] =>
      destruct (@loop_run env f i (after d1 q1 e1 k1 s) d1 q1)
        as (evs & -> & _);
        [apply listening_after, L | exact Hflag
        | cbn [rx with_rx]; rewrite Hrx, !length_app; cbn [length]; lia | ]
  end.
  exists (evs ++ closing). cbn [trace after app].
  rewrite <- !app_assoc. reflexivity.
Qed.

Lemma resync_after_noise_witness :
  let frame := [xaa; xbb] ++ sample_payload ++ [xab] in
  let env := sample_env ([x00; x11] ++ frame) ShortRead None in
  let s := sample_state ([x00; x11] ++ frame) ShortRead in
  dataQueue (self (snd (parseResponses env s)))
  = Some ([] ++ [wire_message (now env 0) 0 (sample_payload ++ [xab])]) /\
  dataQueue (self (snd (parseResponses env s)))
  = dataQueue (self (snd (parseResponses env
      (after (with_rx frame (sample_port ([x00; x11] ++ frame) ShortRead)) [] [] 0 s)))) /\
  fst (parseResponses env s) <> Diverges /\
  exists evs,
    trace (snd (parseResponses env s))
    = [] ++ Logged "RazorIMU 1" INFO "Entering Thread logger"
        :: flat_map (fun b => [Polled false; Read 1 [b]]) [x00; x11] ++ evs.
Proof.
  intros frame env s.
  apply (@resync_after_noise env s "RazorIMU 1"
           (sample_port ([x00; x11] ++ frame) ShortRead) []
           [x00; x11] sample_payload xab).
  - repeat split; reflexivity.
  - reflexivity.
  - reflexivity.
  - repeat constructor; discriminate.
  - reflexivity.
  - reflexivity.
Defined.

(** C4. No CRC rejection: once the two sync bytes have matched and a body
    has been read, the message goes to the queue whether the checksum byte is
    the CRC-8/MAXIM of the 49 payload bytes or not, and carries that byte
    unchanged under [crc8maxim]. *)
Theorem no_crc_rejection (env : Env) (index : Z) (s : State) (d : Serial)
  (q : list Py.dict) (payload : list byte) (crc : byte) (rest : list byte) :
  listening s d q ->
  length payload = 49 ->
  rx d = [xaa; xbb] ++ payload ++ crc :: rest ->
  let m := wire_message (now env (clock s)) index (payload ++ [crc]) in
  let pushed :=
    parseResponses_body index env s
    = (Returns (index + 1)%Z,
       after (with_rx rest d) (q ++ [m])
         [Read 1 [xaa]; Read 1 [xbb]; Read 50 (payload ++ [crc]); Put m] 1 s) /\
    Py.dict_get m "crc8maxim" = Some (Py.Int (byte_val crc)) in
  (byte_val crc = crc8_value payload -> pushed) /\
  (byte_val crc <> crc8_value payload -> pushed).
Proof.
  intros L Hlen Hrx m pushed.
  assert (H : pushed).
  { subst pushed m. split.
    - apply body_frame; [exact L | | rewrite length_app, Hlen; reflexivity].
      rewrite Hrx. cbn [app]. rewrite <- app_assoc. reflexivity.
    - rewrite wire_message_payload by exact Hlen. reflexivity. }
  split; intros _; exact H.
Qed.

Lemma no_crc_rejection_witness :
  let bs := [xaa; xbb] ++ sample_payload ++ [x00] in
  let env := sample_env bs ShortRead None in
  let s := sample_state bs ShortRead in
  let m := wire_message (now env 0) 5 (sample_payload ++ [x00]) in
  byte_val x00 <> crc8_value sample_payload /\
  parseResponses_body 5 env s
  = (Returns (5 + 1)%Z,
     after (with_rx [] (sample_port bs ShortRead)) ([] ++ [m])
       [Read 1 [xaa]; Read 1 [xbb]; Read 50 (sample_payload ++ [x00]); Put m] 1 s) /\
  Py.dict_get m "crc8maxim" = Some (Py.Int (byte_val x00)).
Proof.
  intros bs env s m.
  assert (Hbad : byte_val x00 <> crc8_value sample_payload)
    by (vm_compute; discriminate).
  split; [exact Hbad|].
  refine (proj2 (@no_crc_rejection env 5%Z s (sample_port bs ShortRead) []
                   sample_payload x00 [] _ _ _) Hbad).
  - repeat split; reflexivity.
  - reflexivity.
  - reflexivity.
Defined.

(** C5. Sequential indexing and order: over a stream of N whole frames
    (followed by less than a frame), the queue receives N messages in stream
    order; the n-th of them carries [Index] n and the fields of the n-th
    frame. *)
Theorem sequential_indexing (env : Env) (s : State) (lg : string) (d : Serial)
  (q : list Py.dict) (bodies : list (list byte)) (tail : list byte) :
  running s lg d q ->
  exitFlag (self s) = false ->
  shutdown_at env = None ->
  Forall (fun body => length body = 50) bodies ->
  rx d = frames_stream bodies ++ tail ->
  length tail < 52 ->
  fst (parseResponses env s) <> Diverges /\
  exists msgs,
    dataQueue (self (snd (parseResponses env s))) = Some (q ++ msgs) /\
    length msgs = length bodies /\
    forall n, n < length bodies ->
      Py.dict_get (nth n msgs []) "Index" = Some (Py.Int (Z.of_nat n)) /\
      nth n msgs []
      = wire_message (now env (clock s + n)) (Z.of_nat n) (nth n bodies []).
Proof.
  intros R Hflag Hnever Hall Hrx Htail.
  split; [exact (parseResponses_ends env R)|].
  exists (messages env (clock s) 0 bodies).
  split; [apply (@parseResponses_frames env s lg d q bodies tail); assumption|].
  split; [apply messages_length|].
  intros n Hn. rewrite messages_nth by exact Hn. split; reflexivity.
Qed.

Lemma sequential_indexing_witness :
  let body := sample_payload ++ [xab] in
  let bs := frames_stream [body; body; body] in
  let env := sample_env bs Disconnect None in
  let s := sample_state bs Disconnect in
  fst (parseResponses env s) <> Diverges /\
  exists msgs,
    dataQueue (self (snd (parseResponses env s))) = Some ([] ++ msgs) /\
    length msgs = 3 /\
    forall n, n < 3 ->
      Py.dict_get (nth n msgs []) "Index" = Some (Py.Int (Z.of_nat n)) /\
      nth n msgs []
      = wire_message (now env (0 + n)) (Z.of_nat n) (nth n [body; body; body] []).
Proof.
  intros body bs env s.
  apply (@sequential_indexing env s "RazorIMU 1" (sample_port bs Disconnect) []
           [body; body; body] []).
  - repeat split; reflexivity.
  - reflexivity.
  - reflexivity.
  - repeat constructor.
  - cbn [rx sample_port]. rewrite app_nil_r. reflexivity.
  - cbn. lia.
Defined.

(** C6. 52-byte consumption: a pass that puts a message on the queue has
    taken exactly 52 bytes from the port, in three reads of 1, 1 and 50
    bytes: 0xAA, 0xBB, and the body. *)
Theorem frame_consumes_52_bytes (env : Env) (index : Z) (s : State) (d : Serial)
  (q : list Py.dict) (m : Py.dict) :
  listening s d q ->
  dataQueue (self (snd (parseResponses_body index env s))) = Some (q ++ [m]) ->
  exists body rest,
    rx d = [xaa] ++ [xbb] ++ body ++ rest /\
    length body = 50 /\
    device (self (snd (parseResponses_body index env s))) = Some (with_rx rest d) /\
    length (rx d) = 52 + length rest /\
    trace (snd (parseResponses_body index env s))
    = trace s ++ [Read 1 [xaa]; Read 1 [xbb]; Read 50 body; Put m].
Proof.
  intros L.
  assert (Hno : Some q <> Some (q ++ [m])).
  { intros H. injection H as H. apply (f_equal (@length _)) in H.
    rewrite length_app in H. cbn in H. lia. }
  destruct (parseResponses_body_pass env index L) as
    [b rest Hrx Hb|b rest Hrx Hb|body rest Hrx Hbody|Hst Hae|Hst Hae|Hst Hae];
    cbn [snd after self dataQueue set_dataQueue]; intros H;
    try (exfalso; exact (Hno H)).
  injection H as H. apply app_inv_head in H. injection H as <-.
  exists body, rest. repeat split.
  - exact Hrx.
  - exact Hbody.
  - rewrite Hrx. cbn. rewrite length_app, Hbody. lia.
Qed.

Lemma frame_consumes_52_bytes_witness :
  let bs := [xaa; xbb] ++ sample_payload ++ [xab; x00; x11] in
  let env := sample_env bs ShortRead None in
  let s := sample_state bs ShortRead in
  let m := wire_message (now env 0) 0 (sample_payload ++ [xab]) in
  exists body rest,
    bs = [xaa] ++ [xbb] ++ body ++ rest /\
    length body = 50 /\
    device (self (snd (parseResponses_body 0 env s)))
    = Some (with_rx rest (sample_port bs ShortRead)) /\
    length bs = 52 + length rest /\
    trace (snd (parseResponses_body 0 env s))
    = [] ++ [Read 1 [xaa]; Read 1 [xbb]; Read 50 body; Put m].
Proof.
  intros bs env s m.
  apply (@frame_consumes_52_bytes env 0%Z s (sample_port bs ShortRead) [] m).
  - repeat split; reflexivity.
  - reflexivity.
Defined.



(** C8. Setup failure: when the port path does not exist, [begin] returns
    [False] after one warning; when the port object it gets is not open, it
    stores [False] in [isOpen] and returns [False]. In both cases no thread is
    created or started, nothing is read, the queue is not stored, and a
    session stops there. *)
Theorem begin_setup_failure (env : Env) (s : State) (data_queue : list Py.dict)
  (com_port : string) (baud_rate : Z) :
  let r := begin data_queue com_port baud_rate env s in
  (path_exists env com_port = false ->
   fst r = Returns false /\
   trace (snd r)
   = trace s ++ [Logged (name (self s)) WARNING
                   ("Port is not available: " ++ com_port)] /\
   threadID (self (snd r)) = threadID (self s) /\
   device (self (snd r)) = device (self s) /\
   isOpen (self (snd r)) = isOpen (self s) /\
   dataQueue (self (snd r)) = dataQueue (self s) /\
   session data_queue com_port baud_rate env s = (Returns false, snd r)) /\
  (forall d,
     path_exists env com_port = true ->
     open_port env com_port baud_rate = inl d ->
     is_open d = false ->
     fst r = Returns false /\
     trace (snd r)
     = trace s ++ [Logged (name (self s)) WARNING
                     ("Error opening port: " ++ com_port)] /\
     threadID (self (snd r)) = threadID (self s) /\
     device (self (snd r)) = Some d /\
     isOpen (self (snd r)) = Py.Bool false /\
     dataQueue (self (snd r)) = dataQueue (self s) /\
     session data_queue com_port baud_rate env s = (Returns false, snd r)).
Proof.
  destruct s as [[nm dev io br oe dq ef lg th] tr ck].
  intros r. subst r. split.
  - intros Hpath. unfold session. rewrite bind_run.
    unfold begin, bind, get_self, modify_self, ask, log_record, emit, ret.
    cbn [self name log set_log trace clock fst snd]. rewrite Hpath.
    cbn. repeat split; reflexivity.
  - intros d Hpath Hport Hclosed. unfold session. rewrite bind_run.
    unfold begin, bind, get_self, modify_self, ask, log_record, emit, ret.
    cbn [self name log set_log trace clock fst snd]. rewrite Hpath, Hport.
    cbn. rewrite Hclosed. cbn. repeat split; reflexivity.
Qed.

Lemma begin_setup_failure_witness :
  let closed := {| port := "/dev/ttyUSB0"; baudrate := 500000; is_open := false;
                   rx := [xaa; xbb]; at_end := Silent |} in
  let env := {| path_exists := fun p => String.eqb p "/dev/ttyUSB0";
                open_port := fun _ _ => inl closed;
                now := fun _ => ""%string;
                shutdown_at := None |} in
  let s := {| self := __init__ "RazorIMU 1"; trace := []; clock := 0 |} in
  (fst (begin [] "/dev/ttyUSB1" 500000 env s) = Returns false /\
   threadID (self (snd (begin [] "/dev/ttyUSB1" 500000 env s))) = None /\
   device (self (snd (begin [] "/dev/ttyUSB1" 500000 env s))) = None) /\
  (fst (begin [] "/dev/ttyUSB0" 500000 env s) = Returns false /\
   threadID (self (snd (begin [] "/dev/ttyUSB0" 500000 env s))) = None /\
   device (self (snd (begin [] "/dev/ttyUSB0" 500000 env s))) = Some closed /\
   isOpen (self (snd (begin [] "/dev/ttyUSB0" 500000 env s))) = Py.Bool false).
Proof.
  intros closed env s. split.
  - destruct (proj1 (begin_setup_failure env s [] "/dev/ttyUSB1" 500000) eq_refl)
      as (H1 & _ & H3 & H4 & _).
    repeat split; assumption.
  - destruct (proj2 (begin_setup_failure env s [] "/dev/ttyUSB0" 500000) closed
                eq_refl eq_refl eq_refl)
      as (H1 & _ & H3 & H4 & H5 & _).
    repeat split; assumption.
Defined.



(** C10, as the code has it. With [isOpen] false, [parseResponses] reads
    nothing, puts nothing on the queue and leaves the object as it is. It
    returns, after three log lines, when [begin] has set the logger; on an
    object whose logger is still [None] the first log call raises
    [AttributeError]. *)
Theorem closed_port_guard (env : Env) (s : State) :
  Py.truthy (isOpen (self s)) = false ->
  let r := parseResponses env s in
  self (snd r) = self s /\
  clock (snd r) = clock s /\
  count is_read (trace (snd r)) = count is_read (trace s) /\
  count is_put (trace (snd r)) = count is_put (trace s) /\
  (forall lg,
     log (self s) = Some lg ->
     fst r = Returns tt /\
     trace (snd r)
     = trace s ++ [Logged lg INFO "Entering Thread logger";
                   Logged lg WARNING ("Port is not open: " ++ device_str (device (self s)));
                   Logged lg INFO "Exiting Thread logger"]) /\
  (log (self s) = None -> r = (Raises Py.AttributeError, s)).
Proof.
  intros Hclosed. cbv zeta. unfold parseResponses.
  destruct (log (self s)) as [lg|] eqn:Hlog.
  - rewrite bind_run, (log_record_some env INFO _ s Hlog).
    rewrite bind_run. cbn [get_self self]. rewrite Hclosed. cbn [negb].
    do 2 (rewrite bind_run;
          match goal with
          | |- context [log_record ?l ?m env ?st] =>
              rewrite (@log_record_some env l m st lg Hlog)
          end).
    cbn [ret fst snd self clock trace device].
    rewrite <- !app_assoc. cbn [app]. rewrite !count_app.
    split; [reflexivity|]. split; [reflexivity|].
    split; [unfold count at 2; cbn; lia|].
    split; [unfold count at 2; cbn; lia|].
    split; [|discriminate].
    intros lg' [= <-]. split; reflexivity.
  - rewrite bind_run, (log_record_none env INFO _ s Hlog).
    cbn [fst snd].
    split; [reflexivity|]. split; [reflexivity|].
    split; [reflexivity|]. split; [reflexivity|].
    split; [discriminate | reflexivity].
Qed.

Lemma closed_port_guard_witness :
  let closed := {| port := "/dev/ttyUSB0"; baudrate := 500000; is_open := false;
                   rx := [xaa; xbb]; at_end := Silent |} in
  let env := {| path_exists := fun p => true;
                open_port := fun _ _ => inl closed;
                now := fun _ => ""%string;
                shutdown_at := None |} in
  let s := snd (begin [] "/dev/ttyUSB0" 500000 env
                  {| self := __init__ "RazorIMU 1"; trace := []; clock := 0 |}) in
  Py.truthy (isOpen (self s)) = false /\
  fst (parseResponses env s) = Returns tt /\
  self (snd (parseResponses env s)) = self s /\
  count is_read (trace (snd (parseResponses env s))) = count is_read (trace s) /\
  count is_put (trace (snd (parseResponses env s))) = count is_put (trace s).
Proof.
  intros closed env s.
  destruct (@closed_port_guard env s eq_refl) as (H1 & _ & H3 & H4 & H5 & _).
  destruct (H5 "RazorIMU 1"%string eq_refl) as (H6 & _).
  repeat split; assumption.
Defined.

(** C10, as the claim states it, fails on an object on which [begin] never
    ran: [isOpen] is the 0 of [__init__], and [parseResponses] does not
    return but raises [AttributeError]. *)
Lemma closed_port_guard_before_begin :
  let env := sample_env [] ShortRead None in
  let s := {| self := __init__ "RazorIMU 1"; trace := []; clock := 0 |} in
  Py.truthy (isOpen (self s)) = false /\
  parseResponses env s = (Raises Py.AttributeError, s) /\
  fst (parseResponses env s) <> Returns tt.
Proof.
  cbn zeta. split; [reflexivity|]. split; [reflexivity|]. discriminate.
Qed.

(** * Further properties *)

(** ** Accounts of a pass, of the loop and of the method *)

Lemma read_data_app (a b : list event) :
  read_data (a ++ b) = read_data a ++ read_data b.
Proof. unfold read_data. apply flat_map_app. Qed.

Lemma put_items_app (a b : list event) :
  put_items (a ++ b) = put_items a ++ put_items b.
Proof. unfold put_items. apply flat_map_app. Qed.

Lemma indexed_from_nil (index : Z) : indexed_from index [].
Proof. intros n Hn. cbn in Hn. lia. Qed.

Lemma indexed_from_app (index : Z) (a b : list Py.dict) :
  indexed_from index a ->
  indexed_from (index + Z.of_nat (length a)) b ->
  indexed_from index (a ++ b).
Proof.
  intros Ha Hb n Hn. rewrite length_app in Hn.
  destruct (le_lt_dec (length a) n) as [Hge|Hlt].
  - rewrite app_nth2 by exact Hge. rewrite Hb by lia. do 2 f_equal. lia.
  - rewrite app_nth1 by exact Hlt. apply Ha, Hlt.
Qed.

Lemma pass_account (env : Env) (index : Z) (s : State) (d : Serial)
  (q : list Py.dict) (r : outcome Z) (s' : State) :
  pass env index s d q (r, s') ->
  exists rest msgs evs,
    s' = after (with_rx rest d) (q ++ msgs) evs (length msgs) s /\
    read_data evs ++ rest = rx d /\
    put_items evs = msgs /\
    indexed_from index msgs /\
    Forall decoded msgs /\
    52 * length msgs + length rest <= length (rx d) /\
    match r with
    | Returns index' =>
        index' = (index + Z.of_nat (length msgs))%Z /\ length rest < length (rx d)
    | Raises x => io_failure (at_end d) x
    | Blocks => at_end d = Silent
    | Diverges => False
    end.
Proof.
  inversion 1 as
    [b rest Hrx Hb|b rest Hrx Hb|body rest Hrx Hbody|Hst Hae|Hst Hae|Hst Hae];
    subst.
  - exists rest, [], [Read 1 [b]]. rewrite app_nil_r, Hrx. cbn.
    repeat split; try (apply indexed_from_nil); try constructor; lia.
  - exists rest, [], [Read 1 [xaa]; Read 1 [b]]. rewrite app_nil_r, Hrx. cbn.
    repeat split; try (apply indexed_from_nil); try constructor; lia.
  - exists rest, [wire_message (now env (clock s)) index body],
      [Read 1 [xaa]; Read 1 [xbb]; Read 50 body;
       Put (wire_message (now env (clock s)) index body)].
    rewrite Hrx. cbn [length read_data put_items flat_map app].
    rewrite app_nil_r, length_app, Hbody.
    split; [reflexivity|]. split; [reflexivity|]. split; [reflexivity|].
    split.
    { intros [|n] Hn; [|cbn in Hn; lia]. cbn. do 2 f_equal. lia. }
    split; [repeat constructor; exists (now env (clock s)), index, body; auto|].
    split; [lia|]. split; [reflexivity | lia].
  - exists [], [], (whole_reads (rx d) ++ [short_read (rx d)]).
    rewrite app_nil_r, Hae.
    destruct Hst as [->|[->|(rest & -> & _)]]; cbn; rewrite ?app_nil_r;
      repeat split; try (apply indexed_from_nil); try constructor; auto; lia.
  - exists (left_over (rx d)), [], (whole_reads (rx d)).
    rewrite app_nil_r, Hae.
    destruct Hst as [->|[->|(rest & -> & _)]]; cbn;
      repeat split; try (apply indexed_from_nil); try constructor; auto; lia.
  - exists (left_over (rx d)), [], (whole_reads (rx d)).
    rewrite app_nil_r, Hae.
    destruct Hst as [->|[->|(rest & -> & _)]]; cbn;
      repeat split; try (apply indexed_from_nil); try constructor; auto; lia.
Qed.

Lemma ended_after_after (stop : bool) (d1 d2 : Serial) (q1 q2 : list Py.dict)
  (e1 e2 : list event) (k1 k2 : nat) (s : State) :
  ended stop (after d2 q2 e2 k2 (after d1 q1 e1 k1 s))
  = ended stop (after d2 q2 (e1 ++ e2) (k2 + k1) s).
Proof. rewrite after_after. reflexivity. Qed.

Lemma loop_account (env : Env) (fuel : nat) :
  forall (index : Z) (s : State) (d : Serial) (q : list Py.dict),
    listening s d q ->
    exists rest msgs evs stop,
      snd (parseResponses_loop fuel index env s)
      = ended stop (after (with_rx rest d) (q ++ msgs) evs (length msgs) s) /\
      read_data evs ++ rest = rx d /\
      put_items evs = msgs /\
      indexed_from index msgs /\
      Forall decoded msgs /\
      52 * length msgs + length rest <= length (rx d) /\
      match fst (parseResponses_loop fuel index env s) with
      | Returns _ => stop = true
      | Raises x => stop = false /\ io_failure (at_end d) x
      | Blocks => stop = false /\ at_end d = Silent
      | Diverges => stop = false /\ fuel + length rest <= length (rx d)
      end.
Proof.
  induction fuel as [|fuel IH]; intros index s d q L.
  - exists (rx d), [], [], false. cbn [parseResponses_loop fst snd ended length].
    rewrite app_nil_r, with_rx_same, (after_here L).
    repeat split; try (apply indexed_from_nil); try constructor; lia.
  - rewrite loop_unroll, bind_run.
    destruct (exitFlag (self s) || set_by env (length (trace s))) eqn:Eflag.
    + rewrite (isSet_raised env s Eflag).
      exists (rx d), [], [], true. cbn [ret fst snd ended length].
      rewrite app_nil_r, with_rx_same, (after_here L).
      repeat split; try (apply indexed_from_nil); try constructor; lia.
    + apply orb_false_elim in Eflag as [Ef Es].
      rewrite (isSet_clear env L Ef Es).
      assert (L1 : listening (after d q [Polled false] 0 s) d q)
        by (apply listening_after, L).
      rewrite bind_run.
      pose proof (parseResponses_body_pass env index L1) as P.
      destruct (parseResponses_body index env (after d q [Polled false] 0 s))
        as [r s2].
      destruct (pass_account P)
        as (rest1 & msgs1 & evs1 & -> & Hread1 & Hput1 & Hidx1 & Hdec1 & Hlen1 & Hr).
      rewrite after_after.
      destruct r as [index'|x| |].
      * destruct Hr as [-> Hless].
        match goal with
        | |- context [parseResponses_loop fuel ?i env ?st] =>
            destruct (IH i st (with_rx rest1 d) (q ++ msgs1))
              as (rest2 & msgs2 & evs2 & stop & Hs & Hread2 & Hput2 & Hidx2
                  & Hdec2 & Hlen2 & Hout);
              [apply listening_after, L|]
        end.
        exists rest2, (msgs1 ++ msgs2), (([Polled false] ++ evs1) ++ evs2), stop.
        split.
        { rewrite Hs, ended_after_after, with_rx_with_rx, <- app_assoc, length_app.
          do 2 f_equal. lia. }
        cbn [rx with_rx] in Hread2, Hlen2, Hout.
        split.
        { rewrite !read_data_app, <- !app_assoc, Hread2. cbn [read_data flat_map app].
          exact Hread1. }
        split; [rewrite !put_items_app, Hput1, Hput2; reflexivity|].
        split; [apply indexed_from_app; assumption|].
        split; [apply Forall_app; split; assumption|].
        split; [rewrite length_app; lia|].
        destruct (fst (parseResponses_loop fuel
                         (index + Z.of_nat (length msgs1)) env _));
          cbn [at_end with_rx] in Hout; try exact Hout.
        destruct Hout as [-> Hfuel]. split; [reflexivity | lia].
      * exists rest1, msgs1, ([Polled false] ++ evs1), false.
        cbn [fst snd ended]. rewrite Nat.add_0_r, read_data_app, put_items_app.
        repeat split; assumption.
      * exists rest1, msgs1, ([Polled false] ++ evs1), false.
        cbn [fst snd ended]. rewrite Nat.add_0_r, read_data_app, put_items_app.
        repeat split; assumption.
      * contradiction.
Qed.

(** Everything [parseResponses] does to a running decoder, for any stream,
    any behaviour of the port at its end and any moment of cancellation. *)
Lemma parseResponses_account (env : Env) (s : State) (lg : string) (d : Serial)
  (q : list Py.dict) :
  running s lg d q ->
  exists rest msgs evs,
    device (self (snd (parseResponses env s))) = Some (with_rx rest d) /\
    dataQueue (self (snd (parseResponses env s))) = Some (q ++ msgs) /\
    trace (snd (parseResponses env s)) = trace s ++ evs /\
    clock (snd (parseResponses env s)) = length msgs + clock s /\
    (name (self (snd (parseResponses env s))) = name (self s) /\
     isOpen (self (snd (parseResponses env s))) = isOpen (self s) /\
     baudRate (self (snd (parseResponses env s))) = baudRate (self s) /\
     openError (self (snd (parseResponses env s))) = openError (self s) /\
     log (self (snd (parseResponses env s))) = log (self s) /\
     threadID (self (snd (parseResponses env s))) = threadID (self s)) /\
    read_data evs ++ rest = rx d /\
    put_items evs = msgs /\
    indexed_from 0 msgs /\
    Forall decoded msgs /\
    52 * length msgs + length rest <= length (rx d) /\
    match fst (parseResponses env s) with
    | Returns _ => exitFlag (self (snd (parseResponses env s))) = true
    | Raises x =>
        io_failure (at_end d) x /\
        exitFlag (self (snd (parseResponses env s))) = exitFlag (self s)
    | Blocks =>
        at_end d = Silent /\
        exitFlag (self (snd (parseResponses env s))) = exitFlag (self s)
    | Diverges => False
    end.
Proof.
  intros R. rewrite (parseResponses_running env R).
  destruct R as (Hlog & _ & L). rewrite bind_run.
  destruct (@loop_account env (S (length (rx d))) 0%Z
              (after d q [Logged lg INFO "Entering Thread logger"] 0 s) d q)
    as (rest & msgs & evs & stop & Hs & Hread & Hput & Hidx & Hdec & Hlen & Hout);
    [apply listening_after, L|].
  destruct (parseResponses_loop (S (length (rx d))) 0 env
              (after d q [Logged lg INFO "Entering Thread logger"] 0 s))
    as [o sl].
  cbn [fst snd] in Hs, Hout. subst sl. rewrite after_after, Nat.add_0_r.
  exists rest, msgs.
  destruct o as [u|x| |].
  - subst stop. rewrite bind_run.
    match goal with
    | |- context [log_record ?l ?m env ?st] =>
        rewrite (@log_record_some env l m st lg Hlog)
    end.
    exists (([Logged lg INFO "Entering Thread logger"] ++ evs)
            ++ [Polled true] ++ [Logged lg INFO "Exiting Thread logger"]).
    cbn [ret fst snd ended stopped after self trace clock device dataQueue name
         isOpen baudRate openError log threadID exitFlag set_exitFlag
         set_dataQueue set_device].
    rewrite <- !app_assoc, !read_data_app, !put_items_app.
    cbn [read_data put_items flat_map app]. rewrite !app_nil_r.
    repeat split; try assumption; reflexivity.
  - destruct Hout as [-> Hx].
    exists ([Logged lg INFO "Entering Thread logger"] ++ evs).
    cbn [ret fst snd ended stopped after self trace clock device dataQueue name
         isOpen baudRate openError log threadID exitFlag set_exitFlag
         set_dataQueue set_device].
    rewrite !read_data_app, !put_items_app.
    cbn [read_data put_items flat_map app].
    repeat split; try assumption; reflexivity.
  - destruct Hout as [-> Hx].
    exists ([Logged lg INFO "Entering Thread logger"] ++ evs).
    cbn [ret fst snd ended stopped after self trace clock device dataQueue name
         isOpen baudRate openError log threadID exitFlag set_exitFlag
         set_dataQueue set_device].
    rewrite !read_data_app, !put_items_app.
    cbn [read_data put_items flat_map app].
    repeat split; try assumption; reflexivity.
  - destruct Hout as [_ Hfuel]. lia.
Qed.

(** ** The decoder on arbitrary streams *)

(** X1. Every byte is read once and in order: whatever the stream holds and
    however the run ends, the data returned by the reads of the run, put end
    to end and followed by what the port still holds, is the stream the port
    held at the start. *)
Theorem bytes_read_once_in_order (env : Env) (s : State) (lg : string)
  (d : Serial) (q : list Py.dict) :
  running s lg d q ->
  exists evs rest,
    trace (snd (parseResponses env s)) = trace s ++ evs /\
    device (self (snd (parseResponses env s))) = Some (with_rx rest d) /\
    read_data evs ++ rest = rx d.
Proof.
  intros R.
  destruct (parseResponses_account env R)
    as (rest & msgs & evs & Hdev & _ & Htr & _ & _ & Hread & _).
  exists evs, rest. auto.
Qed.

Lemma bytes_read_once_in_order_witness :
  exists evs rest,
    trace (snd (parseResponses
                  (sample_env ([x00; xaa; x11; xaa; xbb] ++ sample_payload) Disconnect None)
                  (sample_state ([x00; xaa; x11; xaa; xbb] ++ sample_payload) Disconnect)))
    = [] ++ evs /\
    device (self (snd (parseResponses
                  (sample_env ([x00; xaa; x11; xaa; xbb] ++ sample_payload) Disconnect None)
                  (sample_state ([x00; xaa; x11; xaa; xbb] ++ sample_payload) Disconnect))))
    = Some (with_rx rest
              (sample_port ([x00; xaa; x11; xaa; xbb] ++ sample_payload) Disconnect)) /\
    read_data evs ++ rest = [x00; xaa; x11; xaa; xbb] ++ sample_payload.
Proof.
  apply (@bytes_read_once_in_order
           (sample_env ([x00; xaa; x11; xaa; xbb] ++ sample_payload) Disconnect None)
           (sample_state ([x00; xaa; x11; xaa; xbb] ++ sample_payload) Disconnect)
           "RazorIMU 1"
           (sample_port ([x00; xaa; x11; xaa; xbb] ++ sample_payload) Disconnect) []).
  repeat split; reflexivity.
Defined.

(** X2. The queue only grows, and indices follow it: on any stream, with
    noise and false starts, cut short or cancelled at any moment, the items
    the queue held stay in front, the run appends exactly the items of its
    puts, in order, the k-th of them carries [Index] k, and the clock was
    read once for each. *)
Theorem queue_grows_with_sequential_indices (env : Env) (s : State)
  (lg : string) (d : Serial) (q : list Py.dict) :
  running s lg d q ->
  exists evs msgs,
    trace (snd (parseResponses env s)) = trace s ++ evs /\
    put_items evs = msgs /\
    dataQueue (self (snd (parseResponses env s))) = Some (q ++ msgs) /\
    clock (snd (parseResponses env s)) = length msgs + clock s /\
    forall n,
      n < length msgs ->
      Py.dict_get (nth n msgs []) "Index" = Some (Py.Int (Z.of_nat n)).
Proof.
  intros R.
  destruct (parseResponses_account env R)
    as (rest & msgs & evs & _ & Hq & Htr & Hck & _ & _ & Hput & Hidx & _).
  exists evs, msgs.
  split; [exact Htr|]. split; [exact Hput|]. split; [exact Hq|].
  split; [exact Hck|].
  intros n Hn. apply (Hidx n Hn).
Qed.

Lemma queue_grows_with_sequential_indices_witness :
  let body := sample_payload ++ [xab] in
  let bs := [x00; xaa] ++ frames_stream [body] ++ [xaa; x07] ++ frames_stream [body] in
  exists evs msgs,
    trace (snd (parseResponses (sample_env bs ShortRead (Some 20))
                  (sample_state bs ShortRead))) = [] ++ evs /\
    put_items evs = msgs /\
    dataQueue (self (snd (parseResponses (sample_env bs ShortRead (Some 20))
                            (sample_state bs ShortRead)))) = Some ([] ++ msgs) /\
    clock (snd (parseResponses (sample_env bs ShortRead (Some 20))
                  (sample_state bs ShortRead))) = length msgs + 0 /\
    forall n,
      n < length msgs ->
      Py.dict_get (nth n msgs []) "Index" = Some (Py.Int (Z.of_nat n)).
Proof.
  intros body bs.
  apply (@queue_grows_with_sequential_indices (sample_env bs ShortRead (Some 20))
           (sample_state bs ShortRead) "RazorIMU 1" (sample_port bs ShortRead) []).
  repeat split; reflexivity.
Defined.

(** X3. No frame for less than 52 bytes: a run never queues more messages
    than the bytes it took from the port, divided by 52. *)
Theorem frames_bounded_by_bytes (env : Env) (s : State) (lg : string)
  (d : Serial) (q : list Py.dict) :
  running s lg d q ->
  exists msgs rest,
    dataQueue (self (snd (parseResponses env s))) = Some (q ++ msgs) /\
    device (self (snd (parseResponses env s))) = Some (with_rx rest d) /\
    length rest <= length (rx d) /\
    52 * length msgs <= length (rx d) - length rest.
Proof.
  intros R.
  destruct (parseResponses_account env R)
    as (rest & msgs & evs & Hdev & Hq & _ & _ & _ & _ & _ & _ & _ & Hlen & _).
  exists msgs, rest. repeat split; try assumption; lia.
Qed.

Lemma frames_bounded_by_bytes_witness :
  let bs := frames_stream [sample_payload ++ [xab]] ++ [xaa; xbb; x07] in
  exists msgs rest,
    dataQueue (self (snd (parseResponses (sample_env bs ShortRead None)
                            (sample_state bs ShortRead)))) = Some ([] ++ msgs) /\
    device (self (snd (parseResponses (sample_env bs ShortRead None)
                         (sample_state bs ShortRead))))
    = Some (with_rx rest (sample_port bs ShortRead)) /\
    length rest <= length bs /\
    52 * length msgs <= length bs - length rest.
Proof.
  intros bs.
  apply (@frames_bounded_by_bytes (sample_env bs ShortRead None)
           (sample_state bs ShortRead) "RazorIMU 1" (sample_port bs ShortRead) []).
  repeat split; reflexivity.
Defined.

(** X4. What the decoder never touches: a run leaves [name], [isOpen],
    [baudRate], [openError], the logger and the thread handle as they were,
    and the port keeps its path, baud rate and open state; only the pending
    bytes, the queue and the exit flag can differ. *)
Theorem decoder_keeps_attributes (env : Env) (s : State) (lg : string)
  (d : Serial) (q : list Py.dict) :
  running s lg d q ->
  name (self (snd (parseResponses env s))) = name (self s) /\
  isOpen (self (snd (parseResponses env s))) = isOpen (self s) /\
  baudRate (self (snd (parseResponses env s))) = baudRate (self s) /\
  openError (self (snd (parseResponses env s))) = openError (self s) /\
  log (self (snd (parseResponses env s))) = log (self s) /\
  threadID (self (snd (parseResponses env s))) = threadID (self s) /\
  exists d',
    device (self (snd (parseResponses env s))) = Some d' /\
    port d' = port d /\ baudrate d' = baudrate d /\
    is_open d' = is_open d /\ at_end d' = at_end d.
Proof.
  intros R.
  destruct (parseResponses_account env R)
    as (rest & msgs & evs & Hdev & _ & _ & _ & (H1 & H2 & H3 & H4 & H5 & H6) & _).
  repeat (split; [assumption|]).
  exists (with_rx rest d). repeat split. exact Hdev.
Qed.

Lemma decoder_keeps_attributes_witness :
  let bs := frames_stream [sample_payload ++ [xab]] ++ [xaa; xbb; x07] in
  let env := sample_env bs ShortRead (Some 3) in
  let s := sample_state bs ShortRead in
  name (self (snd (parseResponses env s))) = name (self s) /\
  isOpen (self (snd (parseResponses env s))) = isOpen (self s) /\
  baudRate (self (snd (parseResponses env s))) = baudRate (self s) /\
  openError (self (snd (parseResponses env s))) = openError (self s) /\
  log (self (snd (parseResponses env s))) = log (self s) /\
  threadID (self (snd (parseResponses env s))) = threadID (self s) /\
  exists d',
    device (self (snd (parseResponses env s))) = Some d' /\
    port d' = port (sample_port bs ShortRead) /\
    baudrate d' = baudrate (sample_port bs ShortRead) /\
    is_open d' = is_open (sample_port bs ShortRead) /\
    at_end d' = at_end (sample_port bs ShortRead).
Proof.
  intros bs env s.
  apply (@decoder_keeps_attributes env s "RazorIMU 1" (sample_port bs ShortRead) []).
  repeat split; reflexivity.
Defined.

(** X5. How a run can end: [parseResponses] returns only after a poll has
    seen the exit flag, which is then set; otherwise it ends by [TypeError]
    or [struct.error] on a port that reads short, by [SerialException] on a
    port that raises, or it waits for ever on a silent one. No other
    exception leaves it, and in those cases the flag is as it was. *)
Theorem how_a_run_ends (env : Env) (s : State) (lg : string) (d : Serial)
  (q : list Py.dict) :
  running s lg d q ->
  match fst (parseResponses env s) with
  | Returns _ => exitFlag (self (snd (parseResponses env s))) = true
  | Raises x =>
      match at_end d with
      | ShortRead => x = Py.TypeError \/ x = Py.struct_error
      | Disconnect => x = Py.SerialException
      | Silent => False
      end /\
      exitFlag (self (snd (parseResponses env s))) = exitFlag (self s)
  | Blocks =>
      at_end d = Silent /\
      exitFlag (self (snd (parseResponses env s))) = exitFlag (self s)
  | Diverges => False
  end.
Proof.
  intros R.
  destruct (parseResponses_account env R)
    as (rest & msgs & evs & _ & _ & _ & _ & _ & _ & _ & _ & _ & _ & Hout).
  exact Hout.
Qed.

Lemma how_a_run_ends_witness :
  let bs := frames_stream [sample_payload ++ [xab]] in
  fst (parseResponses (sample_env bs Silent None) (sample_state bs Silent)) = Blocks /\
  fst (parseResponses (sample_env bs Silent (Some 4)) (sample_state bs Silent))
  = Returns tt /\
  exitFlag (self (snd (parseResponses (sample_env bs Silent (Some 4))
                         (sample_state bs Silent)))) = true.
Proof.
  intros bs.
  pose proof (@how_a_run_ends (sample_env bs Silent (Some 4)) (sample_state bs Silent)
                "RazorIMU 1" (sample_port bs Silent) []
                ltac:(repeat split; reflexivity)) as H.
  split; [reflexivity|]. split; [reflexivity|]. exact H.
Defined.

(** ** Decoder and printer *)

Lemma decoded_arguments (m : Py.dict) :
  decoded m ->
  exists args, Console.arguments m = inl args /\ length args = 16.
Proof.
  intros (time & index & body & _ & ->).
  eexists. split; reflexivity.
Qed.

(** X6. The printer can read what the decoder writes: every message that a
    run puts on the queue has the keys [printData] looks up, and three
    entries under each of [Acc], [Gyro], [Mag] and [euler], so the sixteen
    arguments of its [format] call evaluate without [KeyError] or
    [IndexError]. *)
Theorem printer_reads_decoder_messages (env : Env) (s : State) (lg : string)
  (d : Serial) (q : list Py.dict) :
  running s lg d q ->
  exists msgs,
    dataQueue (self (snd (parseResponses env s))) = Some (q ++ msgs) /\
    forall m,
      In m msgs ->
      exists args, Console.arguments m = inl args /\ length args = 16.
Proof.
  intros R.
  destruct (parseResponses_account env R)
    as (rest & msgs & evs & _ & Hq & _ & _ & _ & _ & _ & _ & Hdec & _).
  exists msgs. split; [exact Hq|].
  intros m Hin. apply decoded_arguments.
  rewrite Forall_forall in Hdec. apply Hdec, Hin.
Qed.

Lemma printer_reads_decoder_messages_witness :
  let bs := [x11] ++ frames_stream [sample_payload ++ [x00]; sample_payload ++ [xab]] in
  exists msgs,
    dataQueue (self (snd (parseResponses (sample_env bs Disconnect None)
                            (sample_state bs Disconnect)))) = Some ([] ++ msgs) /\
    forall m,
      In m msgs ->
      exists args, Console.arguments m = inl args /\ length args = 16.
Proof.
  intros bs.
  apply (@printer_reads_decoder_messages (sample_env bs Disconnect None)
           (sample_state bs Disconnect) "RazorIMU 1" (sample_port bs Disconnect) []).
  repeat split; reflexivity.
Defined.

(** ** [begin] and [shutdown] *)

Lemma begin_success_eq (env : Env) (s : State) (data_queue : list Py.dict)
  (com_port : string) (baud_rate : Z) (d : Serial) :
  path_exists env com_port = true ->
  open_port env com_port baud_rate = inl d ->
  is_open d = true ->
  begin data_queue com_port baud_rate env s
  = (Returns true,
     {| self :=
          set_threadID (Some Alive)
            (set_dataQueue (Some data_queue)
               (set_isOpen (Py.Bool true)
                  (set_baudRate baud_rate
                     (set_device (Some d)
                        (set_log (Some (name (self s))) (self s))))));
        trace := trace s ++ [Started "Logger";
                             Logged (name (self s)) INFO "Started Logger Thread"];
        clock := clock s |}).
Proof.
  destruct s as [[nm dev io br oe dq ef lg th] tr ck].
  intros Hpath Hport Hopen.
  unfold begin, bind, get_self, modify_self, ask, log_record, emit, ret.
  cbn [self name log set_log trace clock fst snd]. rewrite Hpath, Hport.
  cbn. rewrite Hopen. cbn. rewrite <- app_assoc. reflexivity.
Qed.

(** X7. A successful [begin]: when the path exists and the port it opens is
    open, [begin] returns [True] and leaves a running decoder on that port
    and on the caller's queue, with the thread started, [isOpen] true and the
    baud rate stored. It neither reads from the port nor touches the exit
    flag. *)
Theorem begin_starts_decoder (env : Env) (s : State) (data_queue : list Py.dict)
  (com_port : string) (baud_rate : Z) (d : Serial) :
  path_exists env com_port = true ->
  open_port env com_port baud_rate = inl d ->
  is_open d = true ->
  fst (begin data_queue com_port baud_rate env s) = Returns true /\
  running (snd (begin data_queue com_port baud_rate env s))
    (name (self s)) d data_queue /\
  isOpen (self (snd (begin data_queue com_port baud_rate env s))) = Py.Bool true /\
  baudRate (self (snd (begin data_queue com_port baud_rate env s))) = baud_rate /\
  threadID (self (snd (begin data_queue com_port baud_rate env s))) = Some Alive /\
  exitFlag (self (snd (begin data_queue com_port baud_rate env s)))
  = exitFlag (self s) /\
  trace (snd (begin data_queue com_port baud_rate env s))
  = trace s ++ [Started "Logger";
                Logged (name (self s)) INFO "Started Logger Thread"].
Proof.
  intros Hpath Hport Hopen.
  rewrite (begin_success_eq env s data_queue com_port baud_rate Hpath Hport Hopen).
  cbn. unfold running, listening. cbn. repeat split; try reflexivity. exact Hopen.
Qed.

Lemma begin_starts_decoder_witness :
  let bs := [xaa; xbb; x07] in
  let env := sample_env bs ShortRead None in
  let s := {| self := __init__ "RazorIMU 1"; trace := []; clock := 0 |} in
  fst (begin [] "/dev/ttyUSB0" 500000 env s) = Returns true /\
  snd (begin [] "/dev/ttyUSB0" 500000 env s)
  = {| self := self (sample_state bs ShortRead);
       trace := [Started "Logger";
                 Logged "RazorIMU 1" INFO "Started Logger Thread"];
       clock := 0 |}.
Proof.
  intros bs env s.
  destruct (@begin_starts_decoder env s [] "/dev/ttyUSB0" 500000
              (sample_port bs ShortRead) eq_refl eq_refl eq_refl) as (H & _).
  split; [exact H | reflexivity].
Defined.

(** X8. A port that cannot be opened: when [serial.Serial] raises, [begin]
    does not return [False] but lets the exception through. The logger is
    set by then; [device], [isOpen], the queue and the thread handle are as
    they were, and nothing was logged or started. *)
Theorem begin_open_raises (env : Env) (s : State) (data_queue : list Py.dict)
  (com_port : string) (baud_rate : Z) (x : Py.exn) :
  path_exists env com_port = true ->
  open_port env com_port baud_rate = inr x ->
  begin data_queue com_port baud_rate env s
  = (Raises x,
     {| self := set_log (Some (name (self s))) (self s);
        trace := trace s;
        clock := clock s |}) /\
  session data_queue com_port baud_rate env s
  = begin data_queue com_port baud_rate env s /\
  fst (begin data_queue com_port baud_rate env s) <> Returns false.
Proof.
  destruct s as [[nm dev io br oe dq ef lg th] tr ck].
  intros Hpath Hport.
  assert (H : begin data_queue com_port baud_rate env
                {| self := mkRazorIMU nm dev io br oe dq ef lg th;
                   trace := tr; clock := ck |}
              = (Raises x,
                 {| self := mkRazorIMU nm dev io br oe dq ef (Some nm) th;
                    trace := tr; clock := ck |})).
  { unfold begin, bind, get_self, modify_self, ask, log_record, emit, ret.
    cbn [self name log set_log trace clock fst snd]. rewrite Hpath, Hport.
    reflexivity. }
  split; [exact H|].
  split; [unfold session; rewrite bind_run, H; reflexivity|].
  rewrite H. discriminate.
Qed.

Lemma begin_open_raises_witness :
  let env := {| path_exists := fun _ => true;
                open_port := fun _ _ => inr Py.SerialException;
                now := fun _ => ""%string;
                shutdown_at := None |} in
  let s := {| self := __init__ "RazorIMU 1"; trace := []; clock := 0 |} in
  fst (begin [] "/dev/ttyUSB0" 500000 env s) = Raises Py.SerialException /\
  fst (session [] "/dev/ttyUSB0" 500000 env s) = Raises Py.SerialException.
Proof.
  intros env s.
  destruct (@begin_open_raises env s [] "/dev/ttyUSB0" 500000 Py.SerialException
              eq_refl eq_refl) as (H1 & H2 & _).
  split; [rewrite H1 | rewrite H2, H1]; reflexivity.
Defined.

(** X9. [shutdown] without a thread: on an object that never started one
    ([begin] not called, or failed), [shutdown] sets the exit flag and then
    raises [AttributeError] at [join]; the port is not closed, [isOpen] is
    not cleared and nothing is logged. *)
Theorem shutdown_without_thread (env : Env) (s : State) :
  threadID (self s) = None ->
  shutdown env s
  = (Raises Py.AttributeError,
     {| self := set_exitFlag true (self s); trace := trace s; clock := clock s |}).
Proof.
  intros H. unfold shutdown. rewrite bind_run. cbn [modify_self].
  rewrite bind_run. unfold join. rewrite bind_run. cbn [get_self self threadID
    set_exitFlag]. rewrite H. reflexivity.
Qed.

Lemma shutdown_without_thread_witness :
  let env := sample_env [] ShortRead None in
  let s := snd (begin [] "/dev/ttyUSB1" 500000 env
                  {| self := __init__ "RazorIMU 1"; trace := []; clock := 0 |}) in
  shutdown env s
  = (Raises Py.AttributeError,
     {| self := set_exitFlag true (self s); trace := trace s; clock := clock s |}).
Proof.
  intros env s. apply (@shutdown_without_thread env s). reflexivity.
Defined.

Lemma shutdown_joined (env : Env) (s : State) (d : Serial) (lg : string) :
  threadID (self s) = Some Dead ->
  device (self s) = Some d ->
  log (self s) = Some lg ->
  shutdown env s
  = (Returns true,
     {| self :=
          set_isOpen (Py.Bool false)
            (set_device (Some (with_is_open false d)) (set_exitFlag true (self s)));
        trace := trace s ++ [Closed (port d); Logged lg INFO "Shutting down"];
        clock := clock s |}).
Proof.
  destruct s as [[nm dev io br oe dq ef lg' th] tr ck]. cbn [self threadID device log].
  intros -> -> ->.
  unfold shutdown, join, close, log_record, bind, get_self, modify_self, emit, ret.
  cbn. rewrite <- app_assoc. reflexivity.
Qed.

(** X10. [shutdown] after the thread has ended: it returns [True] with the
    flag set, the port closed and [isOpen] false, after logging the closing
    and the shutdown. The bytes the port still held and the queue are left
    as they were. *)
Theorem shutdown_closes_port (env : Env) (s : State) (d : Serial) (lg : string) :
  threadID (self s) = Some Dead ->
  device (self s) = Some d ->
  log (self s) = Some lg ->
  fst (shutdown env s) = Returns true /\
  exitFlag (self (snd (shutdown env s))) = true /\
  isOpen (self (snd (shutdown env s))) = Py.Bool false /\
  device (self (snd (shutdown env s))) = Some (with_is_open false d) /\
  dataQueue (self (snd (shutdown env s))) = dataQueue (self s) /\
  trace (snd (shutdown env s))
  = trace s ++ [Closed (port d); Logged lg INFO "Shutting down"].
Proof.
  intros Hth Hdev Hlog. rewrite (shutdown_joined env s Hth Hdev Hlog).
  repeat split.
Qed.

Lemma shutdown_closes_port_witness :
  let bs := [xaa; xbb; x07] in
  let env := sample_env bs Disconnect None in
  let s := snd (Thread_run env (sample_state bs Disconnect)) in
  fst (shutdown env s) = Returns true /\
  exitFlag (self (snd (shutdown env s))) = true /\
  isOpen (self (snd (shutdown env s))) = Py.Bool false /\
  device (self (snd (shutdown env s)))
  = Some (with_is_open false (sample_port [x07] Disconnect)) /\
  dataQueue (self (snd (shutdown env s))) = dataQueue (self s) /\
  trace (snd (shutdown env s))
  = trace s ++ [Closed "/dev/ttyUSB0"; Logged "RazorIMU 1" INFO "Shutting down"].
Proof.
  intros bs env s.
  apply (@shutdown_closes_port env s (sample_port [x07] Disconnect) "RazorIMU 1");
    reflexivity.
Defined.

(** ** Whole sessions *)

Lemma Thread_run_ends (env : Env) (s : State) (lg : string) (d : Serial)
  (q : list Py.dict) :
  running s lg d q ->
  at_end d <> Silent ->
  exists rest msgs,
    fst (Thread_run env s) = Returns tt /\
    threadID (self (snd (Thread_run env s))) = Some Dead /\
    log (self (snd (Thread_run env s))) = Some lg /\
    device (self (snd (Thread_run env s))) = Some (with_rx rest d) /\
    dataQueue (self (snd (Thread_run env s))) = Some (q ++ msgs) /\
    indexed_from 0 msgs.
Proof.
  intros R Hend.
  destruct (parseResponses_account env R)
    as (rest & msgs & evs & Hdev & Hq & _ & _ & (_ & _ & _ & _ & Hlog & _) & _ & _
        & Hidx & _ & _ & Hout).
  destruct R as (Hlg & _).
  exists rest, msgs. unfold Thread_run.
  destruct (parseResponses env s) as [[u|x| |] s2]; cbn [fst snd] in *.
  - cbn. rewrite Hlog, Hlg. auto 10.
  - rewrite bind_run. cbn. rewrite Hlog, Hlg. auto 10.
  - destruct Hout as [Hsilent _]. contradiction.
  - contradiction.
Qed.

(** X11. A session on a port that reads short or raises at its end always
    comes to a close: [begin], the thread and [shutdown] together return
    [True], whatever the stream and whenever the flag is set. Afterwards the
    thread has ended, the port is closed, [isOpen] is false, the flag is set,
    and the queue holds the caller's items followed by the decoded messages,
    indexed from 0. *)
Theorem session_completes (env : Env) (s : State) (data_queue : list Py.dict)
  (com_port : string) (baud_rate : Z) (d : Serial) :
  path_exists env com_port = true ->
  open_port env com_port baud_rate = inl d ->
  is_open d = true ->
  at_end d <> Silent ->
  fst (session data_queue com_port baud_rate env s) = Returns true /\
  threadID (self (snd (session data_queue com_port baud_rate env s))) = Some Dead /\
  isOpen (self (snd (session data_queue com_port baud_rate env s))) = Py.Bool false /\
  exitFlag (self (snd (session data_queue com_port baud_rate env s))) = true /\
  (exists rest,
     device (self (snd (session data_queue com_port baud_rate env s)))
     = Some (with_is_open false (with_rx rest d))) /\
  (exists msgs,
     dataQueue (self (snd (session data_queue com_port baud_rate env s)))
     = Some (data_queue ++ msgs) /\
     forall n,
       n < length msgs ->
       Py.dict_get (nth n msgs []) "Index" = Some (Py.Int (Z.of_nat n))).
Proof.
  intros Hpath Hport Hopen Hend.
  pose proof (begin_starts_decoder env s data_queue com_port baud_rate Hpath Hport Hopen)
    as (Hret & R & _).
  unfold session. rewrite bind_run.
  destruct (begin data_queue com_port baud_rate env s) as [o s1].
  cbn [fst snd] in Hret, R. subst o.
  destruct (Thread_run_ends env R Hend)
    as (rest & msgs & Hrun & Hth & Hlog & Hdev & Hq & Hidx).
  unfold meanwhile. cbv beta iota.
  destruct (Thread_run env s1) as [o s2]. cbn [fst snd] in *. subst o.
  rewrite (shutdown_joined env s2 Hth Hdev Hlog).
  cbn [fst snd self threadID isOpen exitFlag device dataQueue set_isOpen
       set_device set_exitFlag].
  split; [reflexivity|]. split; [exact Hth|]. split; [reflexivity|].
  split; [reflexivity|]. split; [exists rest; reflexivity|].
  exists msgs. split; [exact Hq|]. intros n Hn. apply (Hidx n Hn).
Qed.

Lemma session_completes_witness :
  let bs := [x00] ++ frames_stream [sample_payload ++ [xab]] ++ [xaa] in
  let env := sample_env bs ShortRead (Some 5) in
  let s := {| self := __init__ "RazorIMU 1"; trace := []; clock := 0 |} in
  fst (session [] "/dev/ttyUSB0" 500000 env s) = Returns true /\
  threadID (self (snd (session [] "/dev/ttyUSB0" 500000 env s))) = Some Dead /\
  isOpen (self (snd (session [] "/dev/ttyUSB0" 500000 env s))) = Py.Bool false /\
  exitFlag (self (snd (session [] "/dev/ttyUSB0" 500000 env s))) = true /\
  (exists rest,
     device (self (snd (session [] "/dev/ttyUSB0" 500000 env s)))
     = Some (with_is_open false (with_rx rest (sample_port bs ShortRead)))) /\
  (exists msgs,
     dataQueue (self (snd (session [] "/dev/ttyUSB0" 500000 env s)))
     = Some ([] ++ msgs) /\
     forall n,
       n < length msgs ->
       Py.dict_get (nth n msgs []) "Index" = Some (Py.Int (Z.of_nat n))).
Proof.
  intros bs env s.
  apply (@session_completes env s [] "/dev/ttyUSB0" 500000 (sample_port bs ShortRead));
    try reflexivity.
  discriminate.
Defined.

Lemma loop_unstoppable (env : Env) (fuel : nat) :
  shutdown_at env = None ->
  forall (index : Z) (s : State) (d : Serial) (q : list Py.dict) (u : unit),
    listening s d q ->
    exitFlag (self s) = false ->
    fst (parseResponses_loop fuel index env s) <> Returns u.
Proof.
  intros Hnever.
  induction fuel as [|fuel IH]; intros index s d q u L Hflag; [discriminate|].
  rewrite loop_unroll, bind_run.
  rewrite (isSet_clear env L Hflag (set_by_never env _ Hnever)).
  assert (L1 : listening (after d q [Polled false] 0 s) d q)
    by (apply listening_after, L).
  rewrite bind_run.
  pose proof (parseResponses_body_pass env index L1) as P.
  destruct (parseResponses_body index env (after d q [Polled false] 0 s))
    as [r s2].
  destruct (pass_failure P) as (d' & q' & evs_b & k & -> & Hopen' & _ & _).
  destruct r as [index'|x| |]; try discriminate.
  apply IH with (d := d') (q := q'); [|exact Hflag].
  apply listening_after. rewrite Hopen'. apply L.
Qed.

Lemma parseResponses_unstoppable (env : Env) (s : State) (lg : string)
  (d : Serial) (q : list Py.dict) (u : unit) :
  running s lg d q ->
  shutdown_at env = None ->
  exitFlag (self s) = false ->
  fst (parseResponses env s) <> Returns u.
Proof.
  intros R Hnever Hflag. rewrite (parseResponses_running env R), bind_run.
  destruct R as (_ & _ & L).
  assert (L0 : listening
                 (after d q [Logged lg INFO "Entering Thread logger"] 0 s) d q)
    by (apply listening_after, L).
  pose proof (@loop_unstoppable env (S (length (rx d))) Hnever 0%Z
                (after d q [Logged lg INFO "Entering Thread logger"] 0 s) d q tt
                L0 Hflag) as H.
  destruct (parseResponses_loop (S (length (rx d))) 0 env
              (after d q [Logged lg INFO "Entering Thread logger"] 0 s))
    as [[[]|x| |] sl]; cbn [fst] in *; try discriminate.
  exfalso. apply H. reflexivity.
Qed.

(** What the decoder itself does when the port runs dry or fails and nobody
    asks it to stop: the loop ends by an exception that leaves
    [parseResponses], [TypeError] or [struct.error] after a short read,
    [SerialException] when the port raises, and never by a normal return.
    The messages of the whole frames read before stay on the queue, after
    the caller's items, and nothing is queued for the frame that was cut. *)
Lemma read_failure_ends_decoder (env : Env) (s : State) (lg : string)
  (d : Serial) (q : list Py.dict) :
  running s lg d q ->
  exitFlag (self s) = false ->
  shutdown_at env = None ->
  at_end d <> Silent ->
  exists x rest msgs,
    fst (parseResponses env s) = Raises x /\
    io_failure (at_end d) x /\
    device (self (snd (parseResponses env s))) = Some (with_rx rest d) /\
    dataQueue (self (snd (parseResponses env s))) = Some (q ++ msgs) /\
    Forall decoded msgs /\
    indexed_from 0 msgs /\
    52 * length msgs + length rest <= length (rx d).
Proof.
  intros R Hflag Hnever Hend.
  destruct (parseResponses_account env R)
    as (rest & msgs & evs & Hdev & Hq & _ & _ & _ & _ & _ & Hidx & Hdec & Hlen & _).
  assert (Hx : exists x,
             fst (parseResponses env s) = Raises x /\ io_failure (at_end d) x).
  { rewrite (parseResponses_running env R).
    destruct R as (_ & _ & L). rewrite bind_run.
    destruct (@loop_exhausts env (S (length (rx d))) Hnever 0%Z
                (after d q [Logged lg INFO "Entering Thread logger"] 0 s) d q)
      as (x & d' & q' & evs' & k & -> & Hx);
      [apply listening_after, L | exact Hflag | exact Hend | lia | ].
    exists x. split; [reflexivity | exact Hx]. }
  destruct Hx as (x & Hraise & Hx).
  exists x, rest, msgs. auto 10.
Qed.

Lemma shutdown_waits (env : Env) (s : State) :
  threadID (self s) = Some Alive ->
  shutdown env s
  = (Blocks, {| self := set_exitFlag true (self s);
                trace := trace s; clock := clock s |}).
Proof.
  destruct s as [o tr ck]. cbn [self trace clock]. intros Hth.
  unfold shutdown. rewrite bind_run. unfold modify_self at 1.
  cbn [fst snd self trace clock]. rewrite bind_run.
  unfold join. rewrite bind_run. unfold get_self.
  cbn [fst snd self trace clock].
  replace (threadID (set_exitFlag true o)) with (Some Alive)
    by (destruct o; exact (eq_sym Hth)).
  reflexivity.
Qed.

(** X12. A silent port holds [shutdown] back. On a port without timeout that
    goes silent, a thread that has not left its loop by a return, because
    it did not see the flag before the stream ran out, waits in [read] for
    ever and stays alive. [shutdown], called on what the thread has left,
    sets the flag and then waits in [join] without end: it never returns,
    closes nothing and logs nothing, and so the whole session never
    returns. The port stays open and [isOpen] true. This holds whether the
    flag is set after the thread got stuck or never. *)
Theorem session_waits_on_silent_port (env : Env) (s : State)
  (data_queue : list Py.dict) (com_port : string) (baud_rate : Z) (d : Serial) :
  path_exists env com_port = true ->
  open_port env com_port baud_rate = inl d ->
  is_open d = true ->
  at_end d = Silent ->
  let started := snd (begin data_queue com_port baud_rate env s) in
  fst (parseResponses env started) <> Returns tt ->
  let waiting := snd (Thread_run env started) in
  fst (Thread_run env started) = Blocks /\
  threadID (self waiting) = Some Alive /\
  join env {| self := set_exitFlag true (self waiting);
              trace := trace waiting; clock := clock waiting |}
  = (Blocks, {| self := set_exitFlag true (self waiting);
                trace := trace waiting; clock := clock waiting |}) /\
  shutdown env waiting
  = (Blocks, {| self := set_exitFlag true (self waiting);
                trace := trace waiting; clock := clock waiting |}) /\
  session data_queue com_port baud_rate env s = shutdown env waiting /\
  isOpen (self waiting) = Py.Bool true /\
  exists rest,
    device (self waiting) = Some (with_rx rest d) /\
    is_open (with_rx rest d) = true.
Proof.
  intros Hpath Hport Hopen Hsilent started Hnot waiting.
  pose proof (begin_starts_decoder env s data_queue com_port baud_rate Hpath Hport Hopen)
    as (Hret & R & Hio & _ & Hth & _).
  fold started in R, Hio, Hth.
  destruct (parseResponses_account env R)
    as (rest & msgs & evs & Hdev & _ & _ & _ & (_ & Hio' & _ & _ & _ & Hth') & _ & _
        & _ & _ & _ & Hout).
  assert (Hrun : Thread_run env started
                 = (Blocks, snd (parseResponses env started))).
  { unfold Thread_run.
    destruct (parseResponses env started) as [[[]|x| |] s2]; cbn [fst snd] in *.
    - exfalso. apply Hnot. reflexivity.
    - rewrite Hsilent in Hout. destruct Hout as [[] _].
    - reflexivity.
    - contradiction. }
  assert (Halive : threadID (self waiting) = Some Alive).
  { unfold waiting. rewrite Hrun. cbn [snd]. rewrite Hth'. exact Hth. }
  split; [rewrite Hrun; reflexivity|].
  split; [exact Halive|].
  split.
  { unfold join. rewrite bind_run. unfold get_self.
    cbn [fst snd self trace clock].
    replace (threadID (set_exitFlag true (self waiting))) with (Some Alive)
      by (destruct (self waiting); exact (eq_sym Halive)).
    reflexivity. }
  split; [apply shutdown_waits, Halive|].
  split.
  { unfold session. rewrite bind_run.
    destruct (begin data_queue com_port baud_rate env s) as [o s1] eqn:Hb.
    cbn [fst snd] in Hret. subst o.
    unfold meanwhile. cbv beta iota.
    unfold waiting, started. cbn [snd]. subst started. cbn [snd] in Hrun.
    rewrite Hrun. reflexivity. }
  split.
  { unfold waiting. rewrite Hrun. cbn [snd]. rewrite Hio'. exact Hio. }
  exists rest. split; [|exact Hopen].
  unfold waiting. rewrite Hrun. cbn [snd]. exact Hdev.
Qed.

Lemma session_waits_on_silent_port_witness :
  let bs := [x00] ++ frames_stream [sample_payload ++ [xab]] in
  let env := sample_env bs Silent (Some 200) in
  let s := {| self := __init__ "RazorIMU 1"; trace := []; clock := 0 |} in
  let waiting :=
    snd (Thread_run env (snd (begin [] "/dev/ttyUSB0" 500000 env s))) in
  fst (Thread_run env (snd (begin [] "/dev/ttyUSB0" 500000 env s))) = Blocks /\
  threadID (self waiting) = Some Alive /\
  join env {| self := set_exitFlag true (self waiting);
              trace := trace waiting; clock := clock waiting |}
  = (Blocks, {| self := set_exitFlag true (self waiting);
                trace := trace waiting; clock := clock waiting |}) /\
  shutdown env waiting
  = (Blocks, {| self := set_exitFlag true (self waiting);
                trace := trace waiting; clock := clock waiting |}) /\
  session [] "/dev/ttyUSB0" 500000 env s = shutdown env waiting /\
  isOpen (self waiting) = Py.Bool true /\
  exists rest,
    device (self waiting) = Some (with_rx rest (sample_port bs Silent)) /\
    is_open (with_rx rest (sample_port bs Silent)) = true.
Proof.
  intros bs env s.
  apply (@session_waits_on_silent_port env s [] "/dev/ttyUSB0" 500000
           (sample_port bs Silent)); try reflexivity.
  vm_compute. discriminate.
Defined.

Lemma shutdown_sets_flag (env : Env) (s : State) :
  exitFlag (self (snd (shutdown env s))) = true /\
  name (self (snd (shutdown env s))) = name (self s).
Proof.
  destruct s as [[nm dev io br oe dq ef lg th] tr ck].
  unfold shutdown, join, close, log_record, bind, get_self, modify_self, emit,
    ret, raise.
  cbn. destruct th as [[|]|]; cbn; try (split; reflexivity).
  destruct dev as [d|]; cbn; try (split; reflexivity).
  destruct lg as [lg|]; cbn; split; reflexivity.
Qed.

Lemma parseResponses_flag_set (env : Env) (s : State) (lg : string) (d : Serial)
  (q : list Py.dict) :
  running s lg d q ->
  exitFlag (self s) = true ->
  fst (parseResponses env s) = Returns tt /\
  trace (snd (parseResponses env s))
  = trace s ++ [Logged lg INFO "Entering Thread logger"; Polled true;
                Logged lg INFO "Exiting Thread logger"] /\
  device (self (snd (parseResponses env s))) = Some d /\
  dataQueue (self (snd (parseResponses env s))) = Some q /\
  clock (snd (parseResponses env s)) = clock s.
Proof.
  intros R Hflag. rewrite (parseResponses_running env R).
  destruct R as (Hlog & _ & _).
  rewrite bind_run, loop_stops by (cbn; rewrite Hflag; reflexivity).
  rewrite bind_run.
  match goal with
  | |- context [log_record ?l ?m env ?st] =>
      rewrite (@log_record_some env l m st lg Hlog)
  end.
  cbn. rewrite <- !app_assoc. repeat split.
Qed.

(** X13. No second start: [shutdown] sets the exit flag and nothing ever
    clears it, so after a [shutdown], however it ended, a new [begin] that
    succeeds starts a thread that leaves the loop at its first poll: it reads
    no byte from the new port and puts nothing on the new queue. *)
Theorem restart_is_inert (env : Env) (s : State) (data_queue : list Py.dict)
  (com_port : string) (baud_rate : Z) (d : Serial) :
  path_exists env com_port = true ->
  open_port env com_port baud_rate = inl d ->
  is_open d = true ->
  let s1 := snd (shutdown env s) in
  let s2 := snd (begin data_queue com_port baud_rate env s1) in
  fst (begin data_queue com_port baud_rate env s1) = Returns true /\
  fst (parseResponses env s2) = Returns tt /\
  trace (snd (parseResponses env s2))
  = trace s2 ++ [Logged (name (self s)) INFO "Entering Thread logger";
                 Polled true;
                 Logged (name (self s)) INFO "Exiting Thread logger"] /\
  device (self (snd (parseResponses env s2))) = Some d /\
  dataQueue (self (snd (parseResponses env s2))) = Some data_queue.
Proof.
  intros Hpath Hport Hopen s1 s2.
  destruct (shutdown_sets_flag env s) as [Hflag Hname].
  pose proof (begin_starts_decoder env s1 data_queue com_port baud_rate
                Hpath Hport Hopen) as (Hret & R & _ & _ & _ & Hfl & _).
  fold s2 in R, Hfl. subst s1. rewrite Hflag in Hfl. rewrite Hname in R.
  destruct (parseResponses_flag_set env R Hfl) as (H1 & H2 & H3 & H4 & _).
  auto.
Qed.

Lemma restart_is_inert_witness :
  let bs := frames_stream [sample_payload ++ [xab]] in
  let env := sample_env bs ShortRead None in
  let s := snd (session [] "/dev/ttyUSB0" 500000 env
                  {| self := __init__ "RazorIMU 1"; trace := []; clock := 0 |}) in
  let s2 := snd (begin [] "/dev/ttyUSB0" 500000 env (snd (shutdown env s))) in
  fst (begin [] "/dev/ttyUSB0" 500000 env (snd (shutdown env s))) = Returns true /\
  fst (parseResponses env s2) = Returns tt /\
  trace (snd (parseResponses env s2))
  = trace s2 ++ [Logged "RazorIMU 1" INFO "Entering Thread logger";
                 Polled true;
                 Logged "RazorIMU 1" INFO "Exiting Thread logger"] /\
  device (self (snd (parseResponses env s2))) = Some (sample_port bs ShortRead) /\
  dataQueue (self (snd (parseResponses env s2))) = Some [].
Proof.
  intros bs env s.
  apply (@restart_is_inert env s [] "/dev/ttyUSB0" 500000 (sample_port bs ShortRead));
    reflexivity.
Defined.

(** ** Messages *)

(** X14. The layout of a message: every message a run puts on the queue is a
    dict of exactly ten entries, [Time] and [Index] followed by the eight
    [keys] in their order, with 0xAA and 0xBB under [syncAA] and [syncBB];
    [ID] and [crc8maxim] are integers below 256 and the four vectors are
    lists of three floats. *)
Theorem message_layout (env : Env) (s : State) (lg : string) (d : Serial)
  (q : list Py.dict) :
  running s lg d q ->
  exists msgs,
    dataQueue (self (snd (parseResponses env s))) = Some (q ++ msgs) /\
    forall m,
      In m msgs ->
      map fst m = ("Time" :: "Index" :: keys)%string /\
      Py.dict_get m "syncAA" = Some (Py.Int 0xAA) /\
      Py.dict_get m "syncBB" = Some (Py.Int 0xBB) /\
      (exists id crc,
         Py.dict_get m "ID" = Some (Py.Int id) /\
         Py.dict_get m "crc8maxim" = Some (Py.Int crc) /\
         (0 <= id < 256)%Z /\ (0 <= crc < 256)%Z) /\
      forall k,
        In k ["Acc"; "Gyro"; "Mag"; "euler"]%string ->
        exists x y z,
          Py.dict_get m k = Some (Py.List [Py.Float x; Py.Float y; Py.Float z]).
Proof.
  intros R.
  destruct (parseResponses_account env R)
    as (rest & msgs & evs & _ & Hq & _ & _ & _ & _ & _ & _ & Hdec & _).
  exists msgs. split; [exact Hq|].
  intros m Hin. rewrite Forall_forall in Hdec.
  destruct (Hdec m Hin) as (time & index & body & _ & ->).
  split; [reflexivity|]. split; [reflexivity|]. split; [reflexivity|].
  split.
  - exists (byte_at body 0), (byte_at body 49).
    split; [reflexivity|]. split; [reflexivity|].
    unfold byte_at, byte_val.
    split; [destruct (nth 0 body x00) | destruct (nth 49 body x00)];
      vm_compute; split; congruence.
  - intros k [<-|[<-|[<-|[<-|[]]]]]; do 3 eexists; reflexivity.
Qed.

Lemma message_layout_witness :
  let bs := [xaa; x00] ++ frames_stream [sample_payload ++ [x00]] in
  exists msgs,
    dataQueue (self (snd (parseResponses (sample_env bs ShortRead None)
                            (sample_state bs ShortRead)))) = Some ([] ++ msgs) /\
    forall m,
      In m msgs ->
      map fst m = ("Time" :: "Index" :: keys)%string /\
      Py.dict_get m "syncAA" = Some (Py.Int 0xAA) /\
      Py.dict_get m "syncBB" = Some (Py.Int 0xBB) /\
      (exists id crc,
         Py.dict_get m "ID" = Some (Py.Int id) /\
         Py.dict_get m "crc8maxim" = Some (Py.Int crc) /\
         (0 <= id < 256)%Z /\ (0 <= crc < 256)%Z) /\
      forall k,
        In k ["Acc"; "Gyro"; "Mag"; "euler"]%string ->
        exists x y z,
          Py.dict_get m k = Some (Py.List [Py.Float x; Py.Float y; Py.Float z]).
Proof.
  intros bs.
  apply (@message_layout (sample_env bs ShortRead None) (sample_state bs ShortRead)
           "RazorIMU 1" (sample_port bs ShortRead) []).
  repeat split; reflexivity.
Defined.

(** ** The checksum *)

Lemma lxor_byte (a b : Z) :
  (0 <= a < 256)%Z -> (0 <= b < 256)%Z -> (0 <= Z.lxor a b < 256)%Z.
Proof.
  intros Ha Hb.
  assert (Hnn : (0 <= Z.lxor a b)%Z) by (apply Z.lxor_nonneg; lia).
  split; [exact Hnn|].
  destruct (Z.eq_dec (Z.lxor a b) 0) as [->|Hne]; [lia|].
  change 256%Z with (2 ^ 8)%Z. apply Z.log2_lt_pow2; [lia|].
  pose proof (Z.log2_lxor a b (proj1 Ha) (proj1 Hb)) as Hlog.
  assert (Hla : (Z.log2 a < 8)%Z).
  { destruct (Z.eq_dec a 0) as [->|]; [reflexivity|].
    apply Z.log2_lt_pow2; [lia|]. change (2 ^ 8)%Z with 256%Z. lia. }
  assert (Hlb : (Z.log2 b < 8)%Z).
  { destruct (Z.eq_dec b 0) as [->|]; [reflexivity|].
    apply Z.log2_lt_pow2; [lia|]. change (2 ^ 8)%Z with 256%Z. lia. }
  lia.
Qed.

Lemma crc8_maxim_bits_range (n : nat) :
  forall crc, (0 <= crc < 256)%Z -> (0 <= crc8_maxim_bits n crc < 256)%Z.
Proof.
  induction n as [|n IH]; intros crc H; [exact H|].
  cbn [crc8_maxim_bits]. apply IH.
  assert (Hs : (0 <= Z.shiftr crc 1 < 128)%Z).
  { rewrite Z.shiftr_div_pow2 by lia. change (2 ^ 1)%Z with 2%Z.
    split; [apply Z.div_pos; lia | apply Z.div_lt_upper_bound; lia]. }
  destruct (Z.testbit crc 0); [apply lxor_byte|]; lia.
Qed.

Lemma crc8_fold_range (data : list byte) :
  forall crc,
    (0 <= crc < 256)%Z ->
    (0 <= fold_left (fun crc b => crc8_maxim_bits 8 (Z.lxor crc (byte_val b)))
            data crc < 256)%Z.
Proof.
  induction data as [|b data IH]; intros crc H; [exact H|].
  cbn [fold_left]. apply IH, crc8_maxim_bits_range, lxor_byte; [exact H|].
  unfold byte_val. destruct b; vm_compute; split; congruence.
Qed.

(** X15. The checksum is a byte: [crc8_value] of any byte string, the empty
    one included, lies between 0 and 255, so it can be compared with the
    [crc8maxim] field of a message. *)
Theorem crc8_value_is_a_byte (data : list byte) :
  (0 <= crc8_value data < 256)%Z /\ crc8_value [] = 0%Z.
Proof.
  split; [|reflexivity].
  unfold crc8_value, crc8_maxim. apply crc8_fold_range. lia.
Qed.

(** X16. Checking a frame: a byte string followed by its own [crc8_value]
    has [crc8_value] 0. A consumer can therefore test the 50 bytes behind
    the sync markers in one call, which the decoder itself never does. *)
Theorem crc8_value_of_checked_data (data : list byte) (crc : byte) :
  byte_val crc = crc8_value data ->
  crc8_value (data ++ [crc]) = 0%Z.
Proof.
  unfold crc8_value, crc8_maxim. intros H.
  rewrite fold_left_app. cbn [fold_left]. rewrite <- H, Z.lxor_nilpotent.
  reflexivity.
Qed.

Lemma crc8_value_of_checked_data_witness :
  byte_val xab = crc8_value sample_payload /\
  crc8_value (sample_payload ++ [xab]) = 0%Z.
Proof.
  split; [reflexivity|].
  apply (@crc8_value_of_checked_data sample_payload xab). reflexivity.
Defined.

(** ** The two copies of the decoder *)

Lemma sim_ret {A} (a : A) : simulates (ret a) (ret a).
Proof. intros env s. reflexivity. Qed.

Lemma sim_raise {A} (x : Py.exn) : simulates (@raise A x) (raise x).
Proof. intros env s. reflexivity. Qed.

Lemma sim_bind {A B} (m1 m2 : M A) (k1 k2 : A -> M B) :
  simulates m1 m2 ->
  (forall a, simulates (k1 a) (k2 a)) ->
  simulates (bind m1 k1) (bind m2 k2).
Proof.
  intros Hm Hk env s. rewrite !bind_run, (Hm env s).
  destruct (m1 env s) as [[a|x| |] s1]; cbn [fst snd]; try reflexivity.
  apply Hk.
Qed.

Lemma sim_read (n : nat) : simulates (read n) (read n).
Proof.
  intros env [[nm dev io br oe dq ef lg th] tr ck].
  unfold read, bind, get_self, modify_self, emit, ret, raise, as_lib_state.
  cbn. destruct dev as [d|]; [|reflexivity].
  destruct (is_open d); cbn; [|reflexivity].
  destruct (n <=? length (rx d)); cbn.
  - rewrite map_app. reflexivity.
  - destruct (at_end d); cbn; try reflexivity. rewrite map_app. reflexivity.
Qed.

Lemma sim_ord (c : list byte) : simulates (ord c) (ord c).
Proof. intros env s. destruct c as [|b [|b' c]]; reflexivity. Qed.

Lemma sim_isSet : simulates isSet isSet.
Proof.
  intros env [[nm dev io br oe dq ef lg th] tr ck].
  unfold isSet, as_lib_state. cbn. rewrite length_map, map_app. reflexivity.
Qed.

Lemma sim_datetime_now : simulates datetime_now datetime_now.
Proof. intros env s. reflexivity. Qed.

Lemma sim_log_record (lvl : level) (msg : string) :
  simulates (log_record lvl msg) (log_record lvl msg).
Proof.
  intros env [[nm dev io br oe dq ef lg th] tr ck].
  unfold log_record, bind, get_self, emit, raise, as_lib_state. cbn.
  destruct lg as [lg|]; cbn; [rewrite map_app|]; reflexivity.
Qed.

Lemma sim_put_nowait (item : Py.dict) :
  simulates (put_nowait item) (put_nowait (as_lib item)).
Proof.
  intros env [[nm dev io br oe dq ef lg th] tr ck].
  unfold put_nowait, bind, get_self, modify_self, emit, raise, as_lib_state. cbn.
  destruct dq as [q|]; cbn; [rewrite !map_app|]; reflexivity.
Qed.

Lemma unpack_data_frame_keys (a b : Z) (buffer : list byte) (data_frame : Py.dict) :
  unpack_data_frame a b buffer = inl data_frame ->
  map fst data_frame = keys.
Proof.
  unfold unpack_data_frame.
  rewrite (@unpack_from_eq "<B" [struct.B] buffer 0 eq_refl).
  rewrite (@unpack_from_eq "<B" [struct.B] buffer 49 eq_refl).
  rewrite (@unpack_from_eq "<fff" [struct.f; struct.f; struct.f] buffer 1 eq_refl).
  rewrite (@unpack_from_eq "<fff" [struct.f; struct.f; struct.f] buffer 13 eq_refl).
  rewrite (@unpack_from_eq "<fff" [struct.f; struct.f; struct.f] buffer 25 eq_refl).
  rewrite (@unpack_from_eq "<fff" [struct.f; struct.f; struct.f] buffer 37 eq_refl).
  cbn [struct.calcsize struct.size fold_right Nat.add].
  repeat match goal with
         | |- context [?n <=? length buffer] =>
             destruct (n <=? length buffer); cbn [and_then]
         end;
    try discriminate.
  intros [= <-]. reflexivity.
Qed.

Lemma out_message_as_lib (time : string) (index : Z) (data_frame : Py.dict) :
  map fst data_frame = keys ->
  Py.dict_update [("Time", Py.Str time); ("Indice", Py.Int index)]%string data_frame
  = as_lib (Py.dict_update [("Time", Py.Str time); ("Index", Py.Int index)]%string
              data_frame).
Proof.
  intros H.
  do 8 (destruct data_frame as [|[? ?] data_frame]; [discriminate H|]).
  destruct data_frame; [|discriminate H].
  cbn in H. injection H as -> -> -> -> -> -> -> ->. reflexivity.
Qed.

Lemma sim_bind_ret {A B} (a : A) (k1 k2 : A -> M B) :
  simulates (k1 a) (k2 a) ->
  simulates (bind (ret a) k1) (bind (ret a) k2).
Proof. intros H env s. rewrite !bind_run. cbn [ret]. apply H. Qed.

Lemma sim_bind_raise {A B} (x : Py.exn) (k1 k2 : A -> M B) :
  simulates (bind (raise x) k1) (bind (raise x) k2).
Proof. intros env s. reflexivity. Qed.

Lemma sim_body (index : Z) :
  simulates (parseResponses_body index) (Lib.parseResponces_body index).
Proof.
  unfold parseResponses_body, Lib.parseResponces_body.
  apply sim_bind; [apply sim_read|]. intros c.
  apply sim_bind; [apply sim_ord|]. intros syncAA.
  destruct (syncAA =? 170)%Z; [|apply sim_ret].
  apply sim_bind; [apply sim_read|]. intros c'.
  apply sim_bind; [apply sim_ord|]. intros syncBB.
  destruct (syncBB =? 187)%Z; [|apply sim_ret].
  apply sim_bind; [apply sim_read|]. intros buffer.
  destruct (unpack_data_frame syncAA syncBB buffer) as [data_frame|x] eqn:E;
    cbn [lift].
  - apply sim_bind_ret.
    apply sim_bind; [apply sim_datetime_now|]. intros my_time.
    apply sim_bind; [|intros _; apply sim_ret].
    rewrite (@out_message_as_lib my_time index data_frame
               (@unpack_data_frame_keys syncAA syncBB buffer data_frame E)).
    apply sim_put_nowait.
  - apply sim_bind_raise.
Qed.

Lemma sim_loop (fuel : nat) :
  forall index,
    simulates (parseResponses_loop fuel index) (Lib.parseResponces_loop fuel index).
Proof.
  induction fuel as [|fuel IH]; intros index.
  - intros env s. reflexivity.
  - cbn [parseResponses_loop Lib.parseResponces_loop].
    apply sim_bind; [apply sim_isSet|]. intros [|]; [apply sim_ret|].
    apply sim_bind; [apply sim_body|]. intros index'. apply IH.
Qed.

Lemma sim_parseResponses : simulates parseResponses Lib.parseResponces.
Proof.
  assert (Hclosed : forall msg, simulates
            (log_record WARNING msg ;;
             log_record INFO "Exiting Thread logger" ;; ret tt)
            (log_record WARNING msg ;;
             log_record INFO "Exiting Thread logger" ;; ret tt)).
  { intros msg. apply sim_bind; [apply sim_log_record|]. intros _.
    apply sim_bind; [apply sim_log_record|]. intros _. apply sim_ret. }
  assert (Hopen : forall n, simulates
            (parseResponses_loop n 0 ;;
             log_record INFO "Exiting Thread logger" ;; ret tt)
            (Lib.parseResponces_loop n 0 ;;
             log_record INFO "Exiting Thread logger" ;; ret tt)).
  { intros n. apply sim_bind; [apply sim_loop|]. intros _.
    apply sim_bind; [apply sim_log_record|]. intros _. apply sim_ret. }
  unfold parseResponses, Lib.parseResponces.
  apply sim_bind; [apply sim_log_record|]. intros _.
  intros env s. rewrite !bind_run. cbn [get_self].
  change (isOpen (self (as_lib_state s))) with (isOpen (self s)).
  change (device (self (as_lib_state s))) with (device (self s)).
  change (passes (self (as_lib_state s))) with (passes (self s)).
  destruct (negb (Py.truthy (isOpen (self s)))); [apply Hclosed | apply Hopen].
Qed.

(** X17. The two copies decode alike: started on the same object, port,
    clock and cancellation, with the queue holding the same items up to the
    name of the index key, [parseResponces] of [lib/razorIMU.py] ends as
    [parseResponses] does and leaves the same object, trace and queue,
    except that every message carries its index under [Indice] instead of
    [Index]. *)
Theorem lib_copy_decodes_alike (env : Env) (s : State) :
  fst (Lib.parseResponces env (as_lib_state s)) = fst (parseResponses env s) /\
  snd (Lib.parseResponces env (as_lib_state s))
  = as_lib_state (snd (parseResponses env s)) /\
  dataQueue (self (snd (Lib.parseResponces env (as_lib_state s))))
  = option_map (map as_lib) (dataQueue (self (snd (parseResponses env s)))).
Proof.
  rewrite (sim_parseResponses env s). repeat split.
Qed.
